(** * unifi-node: the session, request pipeline and event stream of [UniFiAPI]

    A shallow embedding of [src/index.ts].  The client is a class with
    mutable fields that talks to a controller over HTTP (axios) and over a
    WebSocket, and that reports to its caller through an [EventEmitter].
    The embedding keeps the three apart:

    - the fields of the instance are a record, [UniFiAPI];
    - what the instance did to the outside (notifications emitted, requests
      sent, sockets opened and closed) is a trace kept next to the record
      in [World];
    - what the outside answers is an oracle, [Controller], read by every
      operation.

    Methods are computations in a small state-and-exception monad [M]
    whose state survives a [throw], as the fields of a JavaScript object
    do. *)

From Stdlib Require Import String Ascii List ZArith Bool Lia DecimalString.
Import ListNotations.
Local Open Scope list_scope.
Local Open Scope string_scope.
Set Warnings "-register-all".

(** ** JavaScript values

    Response bodies and event frames are whatever [JSON.parse] produced:
    the TypeScript interfaces are erased at run time, and the code guards
    its accesses with truthiness tests.  An object is its list of own
    properties in insertion order. *)

(** A number of a response or a frame is a double.  The client does two
    things with one: it tests it for truthiness (false for [0], [-0] and
    [NaN]) and it puts it into a template literal (Number::toString, which
    gives [1e+21] for ten to the twenty-first).  A number is kept as these
    two observations. *)
Record JSNumber : Type := mkNumber {
  number_truthy : bool;
  number_text : string
}.

Inductive JSValue : Type :=
| JUndefined
| JNull
| JBool (b : bool)
| JNum (n : JSNumber)
| JStr (s : string)
| JArr (xs : list JSValue)
| JObj (props : list (string * JSValue)).

(** ToBoolean: what [if (v)], [!v], [a && b] and [a || b] look at. *)
Definition truthy (v : JSValue) : bool :=
  match v with
  | JUndefined | JNull => false
  | JBool b => b
  | JNum n => number_truthy n
  | JStr s => negb (String.eqb s "")
  | JArr _ | JObj _ => true
  end.

(** [a || b] on values. *)
Definition js_or (a b : JSValue) : JSValue := if truthy a then a else b.

(** [v === 'lit'] for a string literal. *)
Definition strict_eq_str (v : JSValue) (lit : string) : bool :=
  match v with
  | JStr s => String.eqb s lit
  | _ => false
  end.

Fixpoint own_property (k : string) (props : list (string * JSValue)) : JSValue :=
  match props with
  | [] => JUndefined
  | (k', v) :: rest => if String.eqb k k' then v else own_property k rest
  end.

(** ** Errors *)

(** [class UniFiError extends Error]: [name] is fixed by the constructor,
    [code] is the optional second argument. *)
Record UniFiError : Type := mkUniFiError {
  message : string;
  name : string;
  code : option string
}.

Definition new_UniFiError (msg : string) (c : option string) : UniFiError :=
  {| message := msg; name := "UniFiError"; code := c |}.

(** What the interceptors read from an axios response and from an axios
    error: [response.headers['set-cookie']], [response.data],
    [error.response?.status], [error.code]. *)
Record AxiosResponse : Type := mkResponse {
  status : Z;
  set_cookie : option (list string);
  data : JSValue
}.

Record AxiosError : Type := mkAxiosError {
  ax_message : string;
  ax_code : option string;
  ax_response : option AxiosResponse
}.

(** Everything a method of the client can throw.  The text of a TypeError
    is the engine's own; the model keeps a short form of it and no
    statement depends on it. *)
Inductive Thrown : Type :=
| ThrowUniFi (e : UniFiError)
| ThrowAxios (e : AxiosError)
| ThrowSocket (msg : string)
| ThrowTypeError (msg : string).

(** The outcome of a call: returned (or resolved), thrown (or rejected), or
    a promise that is never settled. *)
Inductive Result (A : Type) : Type :=
| Ok (a : A)
| Throw (t : Thrown)
| Pending.
Arguments Ok {A} a.
Arguments Throw {A} t.
Arguments Pending {A}.

(** [v.k] for a property name that no prototype defines ([meta], [data],
    [message], [rc], [msg], [csrf_token], [mac]): a TypeError on [null] and
    [undefined], [undefined] on the other primitives and on arrays. *)
Definition get_prop (v : JSValue) (k : string) : Result JSValue :=
  match v with
  | JUndefined => Throw (ThrowTypeError "Cannot read properties of undefined")
  | JNull => Throw (ThrowTypeError "Cannot read properties of null")
  | JObj props => Ok (own_property k props)
  | JBool _ | JNum _ | JStr _ | JArr _ => Ok JUndefined
  end.

(** [v?.k] *)
Definition get_prop_opt (v : JSValue) (k : string) : JSValue :=
  match v with
  | JObj props => own_property k props
  | _ => JUndefined
  end.

(** [v[0]] *)
Definition get_first (v : JSValue) : Result JSValue :=
  match v with
  | JUndefined => Throw (ThrowTypeError "Cannot read properties of undefined")
  | JNull => Throw (ThrowTypeError "Cannot read properties of null")
  | JArr xs => Ok (hd JUndefined xs)
  | JObj props => Ok (own_property "0" props)
  | JStr (String c _) => Ok (JStr (String c ""))
  | JStr EmptyString | JBool _ | JNum _ => Ok JUndefined
  end.

(** ** Strings *)

(** The decimal numeral of an integer: the text of a number that is an
    integer below two to the fifty-third in size, such as a port. *)
Definition string_of_Z (n : Z) : string := NilZero.string_of_int (Z.to_int n).

Fixpoint has_own_property (k : string) (props : list (string * JSValue)) : bool :=
  match props with
  | [] => false
  | (k', _) :: rest => if String.eqb k k' then true else has_own_property k rest
  end.

(** Template-literal conversion of a value, [`${v}`].  A primitive has its
    text.  An array is joined: its elements are converted in order,
    [null] and [undefined] to the empty text, and separated by commas.  A
    plain object is [[object Object]], unless it has an own property
    [toString]: a parsed value is never a function, so the property hides
    the method of the prototype, [valueOf] returns the object itself, and
    the conversion throws a TypeError. *)
Fixpoint ToString (v : JSValue) : Result string :=
  match v with
  | JUndefined => Ok "undefined"
  | JNull => Ok "null"
  | JBool true => Ok "true"
  | JBool false => Ok "false"
  | JNum n => Ok (number_text n)
  | JStr s => Ok s
  | JObj props =>
      if has_own_property "toString" props
      then Throw (ThrowTypeError "Cannot convert object to primitive value")
      else Ok "[object Object]"
  | JArr xs =>
      (fix join (l : list JSValue) : Result string :=
         match l with
         | [] => Ok ""
         | x :: rest =>
             match (match x with
                    | JUndefined | JNull => Ok ""
                    | _ => ToString x
                    end) with
             | Ok s =>
                 match rest with
                 | [] => Ok s
                 | _ :: _ =>
                     match join rest with
                     | Ok t => Ok (s ++ "," ++ t)
                     | Throw e => Throw e
                     | Pending => Pending
                     end
                 end
             | Throw e => Throw e
             | Pending => Pending
             end
         end) xs
  end.

(** [String.prototype.toLowerCase] on the ASCII alphabet, the alphabet of
    MAC addresses and of the method names: the letters [A] to [Z] are
    folded, every other character is kept. *)
Definition lower_char (c : ascii) : ascii :=
  let n := nat_of_ascii c in
  if andb (Nat.leb 65 n) (Nat.leb n 90) then ascii_of_nat (n + 32) else c.

Fixpoint toLowerCase (s : string) : string :=
  match s with
  | EmptyString => EmptyString
  | String c rest => String (lower_char c) (toLowerCase rest)
  end.

(** [cookie.split(';')[0]]: the text before the first semicolon. *)
Fixpoint before_semicolon (s : string) : string :=
  match s with
  | EmptyString => EmptyString
  | String c rest =>
      if Ascii.eqb c ";"%char then EmptyString else String c (before_semicolon rest)
  end.

(** [s.replace('http', 'ws')]: the first occurrence only. *)
Fixpoint replace_http_ws (s : string) : string :=
  match s with
  | EmptyString => EmptyString
  | String c rest =>
      if String.prefix "http" s
      then "ws" ++ String.substring 4 (String.length s - 4) s
      else String c (replace_http_ws rest)
  end.

(** ** Configuration

    [UniFiConfig] as a caller can pass it: a JavaScript caller (and the
    test suite, through a cast) may leave any field out, and a field that
    is given holds a value of its declared type; a key given with the value
    [undefined] is not among these configurations, and a port is an
    integer.  [Options] is [Required<UniFiConfig>], what [this.options]
    holds once the constructor has returned. *)

Record UniFiConfig : Type := mkConfig {
  cfg_host : option string;
  cfg_port : option Z;
  cfg_username : option string;
  cfg_password : option string;
  cfg_site : option string;
  cfg_ssl : option bool;
  cfg_strictSSL : option bool;
  cfg_timeout : option Z
}.

Record Options : Type := mkOptions {
  host : string;
  port : Z;
  username : string;
  password : string;
  site : string;
  ssl : bool;
  strictSSL : bool;
  timeout : Z
}.

(** ** The instance and its surroundings *)

(** [new WebSocket(wsUrl, { headers: { Cookie }, rejectUnauthorized })] *)
Record WebSocket : Type := mkWebSocket {
  ws_url : string;
  ws_cookie : string;
  ws_rejectUnauthorized : bool
}.

Record UniFiAPI : Type := mkUniFiAPI {
  options : Options;
  baseURL : string;
  cookies : string;
  csrfToken : JSValue;
  eventSocket : option WebSocket;
  isAuthenticated : bool
}.

(** The argument of a notification. *)
Inductive Payload : Type :=
| NoPayload
| PValue (v : JSValue)
| PError (t : Thrown).

(** [this.emit(event, payload)] *)
Record Notification : Type := mkNotification {
  event_name : string;
  payload : Payload
}.

(** The axios call configuration built by [request] and by [post], and the
    request that leaves after the request interceptor has added the session
    headers. *)
Record AxiosRequest : Type := mkRequest {
  req_method : string;
  req_url : string;
  req_data : JSValue;
  req_Cookie : option string;
  req_X_Csrf_Token : option JSValue
}.

Inductive HttpOutcome : Type :=
| Fulfilled (r : AxiosResponse)
| Failed (e : AxiosError).

Inductive WsOutcome : Type :=
| WsOpen
| WsError (msg : string)
| WsSilent.

(** The controller: its answer to the n-th HTTP request and to the n-th
    socket handshake of the run. *)
Record Controller : Type := mkController {
  respond : nat -> AxiosRequest -> HttpOutcome;
  handshake : nat -> WebSocket -> WsOutcome
}.

Record World : Type := mkWorld {
  api : UniFiAPI;
  emitted : list Notification;
  sent : list AxiosRequest;
  opened : list WebSocket;
  closed : list WebSocket
}.

Definition boot (a : UniFiAPI) : World :=
  {| api := a; emitted := []; sent := []; opened := []; closed := [] |}.

(** ** The monad of methods *)

Definition M (A : Type) : Type := Controller -> World -> Result A * World.

Definition ret {A : Type} (a : A) : M A := fun _ w => (Ok a, w).

Definition bind {A B : Type} (m : M A) (k : A -> M B) : M B :=
  fun c w =>
    match m c w with
    | (Ok a, w') => k a c w'
    | (Throw t, w') => (Throw t, w')
    | (Pending, w') => (Pending, w')
    end.

Definition throw {A : Type} (t : Thrown) : M A := fun _ w => (Throw t, w).

Definition never {A : Type} : M A := fun _ w => (Pending, w).

Definition lift {A : Type} (r : Result A) : M A := fun _ w => (r, w).

(** [try { m } catch (error) { h error }] *)
Definition try_catch {A : Type} (m : M A) (h : Thrown -> M A) : M A :=
  fun c w =>
    match m c w with
    | (Throw t, w') => h t c w'
    | other => other
    end.

Declare Scope js_scope.
Delimit Scope js_scope with js.
Notation "x <- m ;; k" := (bind m (fun x => k))
  (at level 61, m at next level, right associativity) : js_scope.
Notation "m ;; k" := (bind m (fun _ => k))
  (at level 61, right associativity) : js_scope.
Local Open Scope js_scope.

(** Reading and writing the fields of the instance. *)
Definition this : M UniFiAPI := fun _ w => (Ok (api w), w).

Definition assign (f : UniFiAPI -> UniFiAPI) : M unit :=
  fun _ w =>
    (Ok tt, {| api := f (api w); emitted := emitted w; sent := sent w;
               opened := opened w; closed := closed w |}).

Definition set_cookies (v : string) (a : UniFiAPI) : UniFiAPI :=
  {| options := options a; baseURL := baseURL a; cookies := v;
     csrfToken := csrfToken a; eventSocket := eventSocket a;
     isAuthenticated := isAuthenticated a |}.

Definition set_csrfToken (v : JSValue) (a : UniFiAPI) : UniFiAPI :=
  {| options := options a; baseURL := baseURL a; cookies := cookies a;
     csrfToken := v; eventSocket := eventSocket a;
     isAuthenticated := isAuthenticated a |}.

Definition set_eventSocket (v : option WebSocket) (a : UniFiAPI) : UniFiAPI :=
  {| options := options a; baseURL := baseURL a; cookies := cookies a;
     csrfToken := csrfToken a; eventSocket := v;
     isAuthenticated := isAuthenticated a |}.

Definition set_isAuthenticated (v : bool) (a : UniFiAPI) : UniFiAPI :=
  {| options := options a; baseURL := baseURL a; cookies := cookies a;
     csrfToken := csrfToken a; eventSocket := eventSocket a;
     isAuthenticated := v |}.

(** [this.emit(n, p)].  The listeners belong to the caller; the trace keeps
    what was emitted, in order. *)
Definition emit (n : string) (p : Payload) : M unit :=
  fun _ w =>
    (Ok tt, {| api := api w;
               emitted := (emitted w ++ [mkNotification n p])%list;
               sent := sent w; opened := opened w; closed := closed w |}).

(** The transport under the interceptors: the request is put on the wire
    and the controller answers. *)
Definition transport (req : AxiosRequest) : M HttpOutcome :=
  fun c w =>
    (Ok (respond c (List.length (sent w)) req),
     {| api := api w; emitted := emitted w; sent := (sent w ++ [req])%list;
        opened := opened w; closed := closed w |}).

(** [new WebSocket(...)]: the handshake starts. *)
Definition new_WebSocket (url cookie : string) (strict : bool) : M (WebSocket * WsOutcome) :=
  fun c w =>
    let sock := mkWebSocket url cookie strict in
    (Ok (sock, handshake c (List.length (opened w)) sock),
     {| api := api w; emitted := emitted w; sent := sent w;
        opened := (opened w ++ [sock])%list; closed := closed w |}).

(** [socket.close()] *)
Definition close (sock : WebSocket) : M unit :=
  fun _ w =>
    (Ok tt, {| api := api w; emitted := emitted w; sent := sent w;
               opened := opened w; closed := (closed w ++ [sock])%list |}).

(** ** [UniFiAPI]: construction *)

Definition or_default {A : Type} (d : A) (o : option A) : A :=
  match o with
  | Some v => v
  | None => d
  end.

(** [!this.options.host]: the field is missing, or it is the empty string. *)
Definition falsy_field (o : option string) : bool :=
  match o with
  | None => true
  | Some s => String.eqb s ""
  end.

Definition make_baseURL (o : Options) : string :=
  (if ssl o then "https" else "http") ++ "://" ++ host o ++ ":" ++ string_of_Z (port o).

(** [constructor(options: UniFiConfig)].  The defaults are spread first and
    the caller's fields over them; the three mandatory fields are tested
    for truthiness; the base address is derived. *)
Definition constructor (config : UniFiConfig) : Result UniFiAPI :=
  if falsy_field (cfg_host config) || falsy_field (cfg_username config)
     || falsy_field (cfg_password config)
  then Throw (ThrowUniFi (new_UniFiError "Host, username, and password are required" None))
  else
    let o := {| host := or_default "" (cfg_host config);
                port := or_default 8443%Z (cfg_port config);
                username := or_default "" (cfg_username config);
                password := or_default "" (cfg_password config);
                site := or_default "default" (cfg_site config);
                ssl := or_default true (cfg_ssl config);
                strictSSL := or_default false (cfg_strictSSL config);
                timeout := or_default 30000%Z (cfg_timeout config) |} in
    Ok {| options := o; baseURL := make_baseURL o; cookies := "";
          csrfToken := JStr ""; eventSocket := None; isAuthenticated := false |}.

(** ** [setupInterceptors] *)

(** Request interceptor: the session cookie and the CSRF token are added
    when they are set. *)
Definition request_interceptor (config : AxiosRequest) : M AxiosRequest :=
  self <- this ;;
  ret {| req_method := req_method config;
         req_url := req_url config;
         req_data := req_data config;
         req_Cookie :=
           if negb (String.eqb (cookies self) "") then Some (cookies self)
           else req_Cookie config;
         req_X_Csrf_Token :=
           if truthy (csrfToken self) then Some (csrfToken self)
           else req_X_Csrf_Token config |}.

(** Response interceptor, success side: the cookies of the response replace
    the stored ones. *)
Definition response_fulfilled (response : AxiosResponse) : M AxiosResponse :=
  match set_cookie response with
  | Some cs =>
      assign (set_cookies (String.concat "; " (List.map before_semicolon cs))) ;;
      ret response
  | None => ret response
  end.

Definition status_is_401 (error : AxiosError) : bool :=
  match ax_response error with
  | Some r => Z.eqb (status r) 401
  | None => false
  end.

Definition code_is (error : AxiosError) (c : string) : bool :=
  match ax_code error with
  | Some c' => String.eqb c' c
  | None => false
  end.

(** Response interceptor, failure side. *)
Definition response_rejected (error : AxiosError) : M AxiosResponse :=
  if status_is_401 error then
    assign (set_isAuthenticated false) ;;
    throw (ThrowUniFi (new_UniFiError "Authentication failed" (Some "INVALID_CREDENTIALS")))
  else if code_is error "ECONNREFUSED" || code_is error "ENOTFOUND" then
    self <- this ;;
    throw (ThrowUniFi (new_UniFiError
             ("Cannot connect to UniFi Controller at " ++ baseURL self)
             (Some "CONNECTION_ERROR")))
  else throw (ThrowAxios error).

(** [this.client(config)]: the axios instance with both interceptors. *)
Definition client (config : AxiosRequest) : M AxiosResponse :=
  req <- request_interceptor config ;;
  outcome <- transport req ;;
  match outcome with
  | Fulfilled response => response_fulfilled response
  | Failed error => response_rejected error
  end.

(** ** Session *)

(** [d && d.meta && d.meta.rc === 'ok'] *)
Definition envelope_ok (d : JSValue) : Result bool :=
  if truthy d then
    match get_prop d "meta" with
    | Ok meta =>
        if truthy meta then
          match get_prop meta "rc" with
          | Ok rc => Ok (strict_eq_str rc "ok")
          | Throw t => Throw t
          | Pending => Pending
          end
        else Ok false
    | Throw t => Throw t
    | Pending => Pending
    end
  else Ok false.

(** [this.client.post('/api/login', { username, password, remember: false })] *)
Definition login_request (self : UniFiAPI) : AxiosRequest :=
  {| req_method := "post"; req_url := "/api/login";
     req_data := JObj [("username", JStr (username (options self)));
                       ("password", JStr (password (options self)));
                       ("remember", JBool false)];
     req_Cookie := None; req_X_Csrf_Token := None |}.

Definition login : M bool :=
  try_catch
    (self <- this ;;
     response <- client (login_request self) ;;
     ok <- lift (envelope_ok (data response)) ;;
     if ok then
       assign (set_isAuthenticated true) ;;
       meta <- lift (get_prop (data response) "meta") ;;
       csrf_token <- lift (get_prop meta "csrf_token") ;;
       (if truthy csrf_token then assign (set_csrfToken csrf_token) else ret tt) ;;
       emit "authenticated" NoPayload ;;
       ret true
     else
       throw (ThrowUniFi (new_UniFiError "Authentication failed: Invalid response" None)))
    (fun error =>
       assign (set_isAuthenticated false) ;;
       throw error).

(** [this.client.post('/api/logout')] *)
Definition logout_request : AxiosRequest :=
  {| req_method := "post"; req_url := "/api/logout"; req_data := JUndefined;
     req_Cookie := None; req_X_Csrf_Token := None |}.

Definition logout : M bool :=
  try_catch
    (client logout_request ;;
     assign (set_isAuthenticated false) ;;
     assign (set_cookies "") ;;
     assign (set_csrfToken (JStr "")) ;;
     self <- this ;;
     match eventSocket self with
     | Some sock =>
         close sock ;;
         assign (set_eventSocket None)
     | None => ret tt
     end ;;
     emit "disconnected" NoPayload ;;
     ret true)
    (fun _ =>
       assign (set_isAuthenticated false) ;;
       ret true).

Definition ensureAuthenticated : M unit :=
  self <- this ;;
  if negb (isAuthenticated self) then login ;; ret tt else ret tt.

(** ** Request pipeline *)

Inductive Method : Type := GET | POST | PUT | DELETE | PATCH.

Definition method_name (m : Method) : string :=
  match m with
  | GET => "GET"
  | POST => "POST"
  | PUT => "PUT"
  | DELETE => "DELETE"
  | PATCH => "PATCH"
  end.

Definition carries_body (m : Method) : bool :=
  match m with
  | POST | PUT | PATCH => true
  | GET | DELETE => false
  end.

(** [const config = { method: method.toLowerCase(), url: endpoint }], with
    [data] added for a truthy body on POST, PUT and PATCH.  The third
    parameter of [request] is called [body] here, [data] being the field of
    the response. *)
Definition request_config (endpoint : string) (method : Method) (body : JSValue) : AxiosRequest :=
  {| req_method := toLowerCase (method_name method);
     req_url := endpoint;
     req_data := if truthy body && carries_body method then body else JUndefined;
     req_Cookie := None; req_X_Csrf_Token := None |}.

Definition request (endpoint : string) (method : Method) (body : JSValue) : M JSValue :=
  ensureAuthenticated ;;
  response <- client (request_config endpoint method body) ;;
  ok <- lift (envelope_ok (data response)) ;;
  if ok then
    d <- lift (get_prop (data response) "data") ;;
    ret (js_or d (data response))
  else
    text <- lift (ToString (js_or (get_prop_opt (get_prop_opt (data response) "meta") "msg")
                                  (JStr "Unknown error"))) ;;
    throw (ThrowUniFi (new_UniFiError ("API Error: " ++ text) None)).

(** ** Domain operations *)

Definition site_path (self : UniFiAPI) (tail : string) : string :=
  "/api/s/" ++ site (options self) ++ tail.

Definition getDevices : M JSValue :=
  self <- this ;;
  request (site_path self "/stat/device") GET JUndefined.

Definition getClients : M JSValue :=
  self <- this ;;
  request (site_path self "/stat/sta") GET JUndefined.

(** The predicate of both lookups, [d => d.mac.toLowerCase() === mac.toLowerCase()]. *)
Definition mac_matches (mac : string) (d : JSValue) : Result bool :=
  match get_prop d "mac" with
  | Ok (JStr s) => Ok (String.eqb (toLowerCase s) (toLowerCase mac))
  | Ok JUndefined => Throw (ThrowTypeError "Cannot read properties of undefined")
  | Ok JNull => Throw (ThrowTypeError "Cannot read properties of null")
  | Ok _ => Throw (ThrowTypeError "d.mac.toLowerCase is not a function")
  | Throw t => Throw t
  | Pending => Pending
  end.

(** [Array.prototype.find]: the first element the predicate accepts,
    [undefined] when there is none; an exception of the predicate ends the
    scan. *)
Fixpoint Array_find (p : JSValue -> Result bool) (xs : list JSValue) : Result JSValue :=
  match xs with
  | [] => Ok JUndefined
  | x :: rest =>
      match p x with
      | Ok true => Ok x
      | Ok false => Array_find p rest
      | Throw t => Throw t
      | Pending => Pending
      end
  end.

(** [collection.find(p)] on whatever the pipeline returned. *)
Definition call_find (collection : JSValue) (p : JSValue -> Result bool) : Result JSValue :=
  match collection with
  | JArr xs => Array_find p xs
  | JUndefined => Throw (ThrowTypeError "Cannot read properties of undefined")
  | JNull => Throw (ThrowTypeError "Cannot read properties of null")
  | _ => Throw (ThrowTypeError "find is not a function")
  end.

Definition getDevice (mac : string) : M JSValue :=
  devices <- getDevices ;;
  device <- lift (call_find devices (mac_matches mac)) ;;
  if negb (truthy device) then
    throw (ThrowUniFi (new_UniFiError ("Device with MAC " ++ mac ++ " not found") None))
  else ret device.

Definition getClient (mac : string) : M JSValue :=
  clients <- getClients ;;
  client_ <- lift (call_find clients (mac_matches mac)) ;;
  if negb (truthy client_) then
    throw (ThrowUniFi (new_UniFiError ("Client with MAC " ++ mac ++ " not found") None))
  else ret client_.

Definition getDeviceStats (mac : string) : M JSValue :=
  self <- this ;;
  devices <- request (site_path self ("/stat/device/" ++ mac)) GET JUndefined ;;
  first <- lift (get_first devices) ;;
  ret (js_or first JNull).

Definition getClientStats (mac : string) : M JSValue :=
  self <- this ;;
  clients <- request (site_path self ("/stat/user/" ++ mac)) GET JUndefined ;;
  first <- lift (get_first clients) ;;
  ret (js_or first JNull).

(** ** Event stream *)

Definition handleEvent (event : JSValue) : M unit :=
  if negb (truthy event) then ret tt
  else
    meta <- lift (get_prop event "meta") ;;
    if negb (truthy meta) then ret tt
    else
      eventType <- lift (get_prop meta "message") ;;
      d <- lift (get_prop event "data") ;;
      let eventData := js_or d (JObj []) in
      (if strict_eq_str eventType "sta:connect" then
         emit "client.connected" (PValue eventData)
       else if strict_eq_str eventType "sta:disconnect" then
         emit "client.disconnected" (PValue eventData)
       else if strict_eq_str eventType "ap:detected" then
         emit "device.detected" (PValue eventData)
       else if strict_eq_str eventType "ap:lost" then
         emit "device.lost" (PValue eventData)
       else
         emit "event" (PValue (JObj [("type", eventType); ("data", eventData)]))) ;;
      emit "raw_event" (PValue event).

Definition enableEvents : M bool :=
  ensureAuthenticated ;;
  self <- this ;;
  match eventSocket self with
  | Some _ => ret true
  | None =>
      let wsUrl := replace_http_ws (baseURL self) ++ "/wss/s/" ++ site (options self) ++ "/events" in
      started <- new_WebSocket wsUrl (cookies self) (strictSSL (options self)) ;;
      assign (set_eventSocket (Some (fst started))) ;;
      match snd started with
      | WsOpen =>
          emit "events.connected" NoPayload ;;
          ret true
      | WsError msg =>
          emit "error" (PError (ThrowSocket msg)) ;;
          throw (ThrowSocket msg)
      | WsSilent => never
      end
  end.

(** The [close] listener of the socket. *)
Definition on_close : M unit :=
  assign (set_eventSocket None) ;;
  emit "events.disconnected" NoPayload.

Definition disableEvents : M bool :=
  self <- this ;;
  match eventSocket self with
  | Some sock =>
      close sock ;;
      assign (set_eventSocket None) ;;
      ret true
  | None => ret true
  end.

(** [run m c w]: the method [m] called on the instance of [w] against the
    controller [c]. *)
Definition run {A : Type} (m : M A) (c : Controller) (w : World) : Result A * World := m c w.

Definition count_emitted (n : string) (w : World) : nat :=
  List.length (List.filter (fun e => String.eqb (event_name e) n) (emitted w)).


(** [w] after the notifications [ns] have been emitted and nothing else has
    happened. *)
Definition notified (w : World) (ns : list Notification) : World :=
  {| api := api w; emitted := (emitted w ++ ns)%list; sent := sent w;
     opened := opened w; closed := closed w |}.

(** ** Identifiers that differ in case only

    The relation the lookups are specified with, stated on the characters
    and not through [toLowerCase]: two identifiers have the same length and,
    position by position, the same character or the two cases of one ASCII
    letter. *)

Definition is_upper (c : ascii) : Prop :=
  65 <= nat_of_ascii c /\ nat_of_ascii c <= 90.

Definition same_letter (a b : ascii) : Prop :=
  a = b
  \/ (is_upper a /\ nat_of_ascii b = nat_of_ascii a + 32)
  \/ (is_upper b /\ nat_of_ascii a = nat_of_ascii b + 32).

Inductive same_ignoring_case : string -> string -> Prop :=
| sic_empty : same_ignoring_case EmptyString EmptyString
| sic_letter (a b : ascii) (s t : string) :
    same_letter a b -> same_ignoring_case s t ->
    same_ignoring_case (String a s) (String b t).

(** An entry of a collection whose identifier is, or is not, the one looked
    up. *)
Definition identified_by (mac : string) (d : JSValue) : Prop :=
  exists s, get_prop_opt d "mac" = JStr s /\ same_ignoring_case s mac.

Definition identified_otherwise (mac : string) (d : JSValue) : Prop :=
  exists s, get_prop_opt d "mac" = JStr s /\ ~ same_ignoring_case s mac.

(** Text of the ASCII alphabet.  On such text [toLowerCase] above is all
    of [String.prototype.toLowerCase]; beyond it the method also folds the
    cased letters of other alphabets, so that two identifiers which are
    not the same up to ASCII case are known to be told apart by the lookup
    only when both are ASCII text. *)
Fixpoint ascii_only (s : string) : bool :=
  match s with
  | EmptyString => true
  | String c rest => Nat.ltb (nat_of_ascii c) 128 && ascii_only rest
  end.

(** An entry whose identifier the lookup tells apart from [mac]. *)
Definition identified_apart (mac : string) (d : JSValue) : Prop :=
  exists s,
    get_prop_opt d "mac" = JStr s
    /\ ascii_only s = true /\ ascii_only mac = true
    /\ ~ same_ignoring_case s mac.

(** ** Errors by kind

    [discriminable base plain t]: the thrown value [t] is an error of the
    transport thrown again as it came, or a TypeError of the language, or
    a [UniFiError] named [UniFiError] that carries the code
    [INVALID_CREDENTIALS] with the fixed message of the 401 case, or the
    code [CONNECTION_ERROR] with the message that names the base address
    [base], or no code and one of the messages [plain]. *)
Definition discriminable (base : string) (plain : string -> Prop) (t : Thrown) : Prop :=
  (exists error, t = ThrowAxios error)
  \/ (exists msg, t = ThrowTypeError msg)
  \/ exists e,
       t = ThrowUniFi e /\ name e = "UniFiError"
       /\ ((code e = Some "INVALID_CREDENTIALS" /\ message e = "Authentication failed")
           \/ (code e = Some "CONNECTION_ERROR"
               /\ message e = "Cannot connect to UniFi Controller at " ++ base)
           \/ (code e = None /\ plain (message e))).

(** ** Fixtures: the client and the frames of the test suite *)

Definition minimal_config : UniFiConfig :=
  {| cfg_host := Some "test.local"; cfg_port := None;
     cfg_username := Some "user"; cfg_password := Some "pass";
     cfg_site := None; cfg_ssl := None; cfg_strictSSL := None; cfg_timeout := None |}.

Definition minimal_api : UniFiAPI :=
  {| options := {| host := "test.local"; port := 8443; username := "user";
                   password := "pass"; site := "default"; ssl := true;
                   strictSSL := false; timeout := 30000 |};
     baseURL := "https://test.local:8443"; cookies := ""; csrfToken := JStr "";
     eventSocket := None; isAuthenticated := false |}.

Definition envelope_rc (rc : string) : JSValue :=
  JObj [("meta", JObj [("rc", JStr rc)]); ("data", JArr [])].

(** A controller that accepts every request and opens every socket. *)
Definition obliging : Controller :=
  {| respond := fun _ _ => Fulfilled (mkResponse 200 None (envelope_rc "ok"));
     handshake := fun _ _ => WsOpen |}.

Definition frame (tag : string) (d : JSValue) : JSValue :=
  JObj [("meta", JObj [("message", JStr tag)]); ("data", d)].

Definition mac_AA : JSValue := JObj [("mac", JStr "AA")].

Definition signed_in : UniFiAPI := set_isAuthenticated true minimal_api.

(** A controller that answers every request with status 200 and a failed
    envelope carrying [msg]. *)
Definition rejecting (msg : JSValue) : Controller :=
  {| respond := fun _ _ =>
       Fulfilled (mkResponse 200 None
                    (JObj [("meta", JObj [("rc", JStr "error"); ("msg", msg)]);
                           ("data", JArr [])]));
     handshake := fun _ _ => WsOpen |}.

Definition refused : AxiosError :=
  {| ax_message := "connect ECONNREFUSED"; ax_code := Some "ECONNREFUSED";
     ax_response := None |}.

(** A controller that answers the first [n] requests and is unreachable
    from then on. *)
Definition drops_after (n : nat) : Controller :=
  {| respond := fun i _ =>
       if Nat.ltb i n then Fulfilled (mkResponse 200 None (envelope_rc "ok"))
       else Failed refused;
     handshake := fun _ _ => WsOpen |}.

Definition unauthorized : AxiosError :=
  {| ax_message := "Request failed with status code 401";
     ax_code := Some "ERR_BAD_REQUEST";
     ax_response := Some (mkResponse 401 None JUndefined) |}.

(** A controller that answers the first [n] requests and rejects every
    later one with status 401. *)
Definition expires_after (n : nat) : Controller :=
  {| respond := fun i _ =>
       if Nat.ltb i n then Fulfilled (mkResponse 200 None (envelope_rc "ok"))
       else Failed unauthorized;
     handshake := fun _ _ => WsOpen |}.

(** A controller that fails every request with [error]. *)
Definition failing (error : AxiosError) : Controller :=
  {| respond := fun _ _ => Failed error; handshake := fun _ _ => WsOpen |}.

Definition timed_out : AxiosError :=
  {| ax_message := "timeout of 30000ms exceeded"; ax_code := Some "ECONNABORTED";
     ax_response := None |}.

Definition empty_host_config : UniFiConfig :=
  {| cfg_host := Some ""; cfg_port := None;
     cfg_username := Some "user"; cfg_password := Some "pass";
     cfg_site := None; cfg_ssl := None; cfg_strictSSL := None; cfg_timeout := None |}.

(** A controller that answers every request with the collection [payload]. *)
Definition serving (payload : JSValue) : Controller :=
  {| respond := fun _ _ =>
       Fulfilled (mkResponse 200 None
                    (JObj [("meta", JObj [("rc", JStr "ok")]); ("data", payload)]));
     handshake := fun _ _ => WsOpen |}.

Definition two_devices : list JSValue :=
  [ JObj [("mac", JStr "aa:bb:cc:00:00:01"); ("name", JStr "switch")];
    JObj [("mac", JStr "AA:BB:CC:00:00:02"); ("name", JStr "ap")] ].

(** ** Proof steps *)

(** Unfold the monad and compute. *)
Ltac run_js :=
  unfold run, bind, ret, throw, lift, emit, assign, this, never, try_catch, notified;
  simpl.

(** Rewrite with a fact about [run m c w] in a goal where [run] is already
    unfolded. *)
Ltac rewrite_run H :=
  let E := fresh "E" in
  pose proof H as E; unfold run in E; rewrite E; clear E.

(** ** Commands, networks and read operations

    The remaining domain operations of [UniFiAPI].  Each one is a call of
    [request] on a fixed path; the commands discard what the pipeline
    returns and answer [true]. *)

Definition restartDevice (mac : string) : M bool :=
  self <- this ;;
  request (site_path self "/cmd/devmgr") POST
          (JObj [("cmd", JStr "restart"); ("mac", JStr mac)]) ;;
  ret true.

Definition adoptDevice (mac : string) : M bool :=
  self <- this ;;
  request (site_path self "/cmd/devmgr") POST
          (JObj [("cmd", JStr "adopt"); ("mac", JStr mac)]) ;;
  ret true.

Definition forgetDevice (mac : string) : M bool :=
  self <- this ;;
  request (site_path self "/cmd/devmgr") POST
          (JObj [("cmd", JStr "forget"); ("mac", JStr mac)]) ;;
  ret true.

Definition blockClient (mac : string) : M bool :=
  self <- this ;;
  request (site_path self "/cmd/stamgr") POST
          (JObj [("cmd", JStr "block-sta"); ("mac", JStr mac)]) ;;
  ret true.

Definition unblockClient (mac : string) : M bool :=
  self <- this ;;
  request (site_path self "/cmd/stamgr") POST
          (JObj [("cmd", JStr "unblock-sta"); ("mac", JStr mac)]) ;;
  ret true.

Definition reconnectClient (mac : string) : M bool :=
  self <- this ;;
  request (site_path self "/cmd/stamgr") POST
          (JObj [("cmd", JStr "kick-sta"); ("mac", JStr mac)]) ;;
  ret true.

Definition archiveAlert (id : string) : M bool :=
  self <- this ;;
  request (site_path self "/cmd/evtmgr") POST
          (JObj [("cmd", JStr "archive-alarm"); ("_id", JStr id)]) ;;
  ret true.

Definition getNetworks : M JSValue :=
  self <- this ;;
  request (site_path self "/rest/networkconf") GET JUndefined.

Definition createNetwork (config : JSValue) : M JSValue :=
  self <- this ;;
  request (site_path self "/rest/networkconf") POST config.

Definition updateNetwork (id : string) (config : JSValue) : M JSValue :=
  self <- this ;;
  request (site_path self ("/rest/networkconf/" ++ id)) PUT config.

Definition deleteNetwork (id : string) : M bool :=
  self <- this ;;
  request (site_path self ("/rest/networkconf/" ++ id)) DELETE JUndefined ;;
  ret true.

Definition getSystemStats : M JSValue :=
  self <- this ;;
  request (site_path self "/stat/sysinfo") GET JUndefined.

Definition getControllerInfo : M JSValue := request "/api/self" GET JUndefined.

Definition getSites : M JSValue := request "/api/self/sites" GET JUndefined.

Definition getAlerts : M JSValue :=
  self <- this ;;
  request (site_path self "/list/alarm") GET JUndefined.

(** ** What leaves and what comes back

    The request interceptor and the success side of the response
    interceptor as functions of the session, for the statements about the
    requests a run has sent. *)

Definition outgoing (self : UniFiAPI) (config : AxiosRequest) : AxiosRequest :=
  {| req_method := req_method config;
     req_url := req_url config;
     req_data := req_data config;
     req_Cookie :=
       if negb (String.eqb (cookies self) "") then Some (cookies self)
       else req_Cookie config;
     req_X_Csrf_Token :=
       if truthy (csrfToken self) then Some (csrfToken self)
       else req_X_Csrf_Token config |}.

Definition received (response : AxiosResponse) (self : UniFiAPI) : UniFiAPI :=
  match set_cookie response with
  | Some cs => set_cookies (String.concat "; " (List.map before_semicolon cs)) self
  | None => self
  end.

(** The world once [req] has been put on the wire and [response] has come
    back through the interceptor. *)
Definition answered (w : World) (req : AxiosRequest) (response : AxiosResponse) : World :=
  {| api := received response (api w); emitted := emitted w;
     sent := (sent w ++ [req])%list; opened := opened w; closed := closed w |}.

(** The result code and the message of an envelope, [d?.meta?.rc] and
    [d?.meta?.msg]. *)
Definition rc_of (d : JSValue) : JSValue := get_prop_opt (get_prop_opt d "meta") "rc".

Definition msg_of (d : JSValue) : JSValue := get_prop_opt (get_prop_opt d "meta") "msg".

(** A controller that sets two cookies on every answer. *)
Definition cookie_setting : Controller :=
  {| respond := fun _ _ =>
       Fulfilled (mkResponse 200
                    (Some ["unifises=abc123; Path=/; Secure; HttpOnly";
                           "csrf_token=xyz; Path=/"])
                    (envelope_rc "ok"));
     handshake := fun _ _ => WsOpen |}.

(** What the pipeline throws for an envelope whose result code is not
    ['ok']: the API error with the text of the message, or of
    [Unknown error] when the message is falsy; the TypeError of the
    conversion when the message has no text. *)
Definition api_error {A : Type} (d : JSValue) : Result A :=
  match ToString (js_or (msg_of d) (JStr "Unknown error")) with
  | Ok text => Throw (ThrowUniFi (new_UniFiError ("API Error: " ++ text) None))
  | Throw t => Throw t
  | Pending => Pending
  end.

(** [performs op method path body result]: on an authenticated session
    whose request the transport fulfils, [op] is one [method] request to
    [path] with [body]; an answer with result code ['ok'] makes it return
    [result] of the data section (of the envelope when the data section is
    missing or falsy), any other fulfilled answer makes it throw
    [api_error]; the world afterwards is the one in which that single
    request has been answered. *)
Definition performs {A : Type} (op : M A) (method : Method) (path : UniFiAPI -> string)
    (body : JSValue) (result : JSValue -> A) : Prop :=
  forall (c : Controller) (w : World) (response : AxiosResponse),
    isAuthenticated (api w) = true ->
    respond c (List.length (sent w))
            (outgoing (api w) (request_config (path (api w)) method body))
      = Fulfilled response ->
    run op c w
    = (if strict_eq_str (rc_of (data response)) "ok"
       then Ok (result (js_or (get_prop_opt (data response) "data") (data response)))
       else api_error (data response),
       answered w (outgoing (api w) (request_config (path (api w)) method body)) response).

(** ** The event socket of a session *)

(** The socket [enableEvents] creates: the base address with its first
    [http] turned into [ws], the event path of the site, the stored cookies
    as [Cookie] header, and the strictness of the configuration. *)
Definition event_socket (self : UniFiAPI) : WebSocket :=
  mkWebSocket
    (replace_http_ws (baseURL self) ++ "/wss/s/" ++ site (options self) ++ "/events")
    (cookies self) (strictSSL (options self)).

(** The world in which that socket has been created and its handle
    stored. *)
Definition connecting (w : World) : World :=
  {| api := set_eventSocket (Some (event_socket (api w))) (api w);
     emitted := emitted w; sent := sent w;
     opened := (opened w ++ [event_socket (api w)])%list; closed := closed w |}.

(** A controller that answers every request and leaves every handshake
    unanswered. *)
Definition silent_socket : Controller :=
  {| respond := fun _ _ => Fulfilled (mkResponse 200 None (envelope_rc "ok"));
     handshake := fun _ _ => WsSilent |}.

(** A host whose name contains [http], over plain HTTP and a port of its
    own. *)
Definition http_named_config : UniFiConfig :=
  {| cfg_host := Some "http-gw.lan"; cfg_port := Some 8080%Z;
     cfg_username := Some "user"; cfg_password := Some "pass";
     cfg_site := Some "branch"; cfg_ssl := Some false; cfg_strictSSL := Some true;
     cfg_timeout := None |}.

(** A collection whose first entry has no [mac]. *)
Definition damaged_devices : list JSValue :=
  [ JObj [("name", JStr "unnamed")];
    JObj [("mac", JStr "aa:bb:cc:00:00:02"); ("name", JStr "ap")] ].

(** ** The configuration of a client

    [m] keeps the configuration: whatever the controller does, the options
    and the base address after [m] are those before it. *)
Definition keeps_configuration {A : Type} (m : M A) : Prop :=
  forall (c : Controller) (w : World),
    options (api (snd (run m c w))) = options (api w)
    /\ baseURL (api (snd (run m c w))) = baseURL (api w).

(** * Event routing *)

(** A frame whose metadata section is present is an object. *)
Lemma present_meta_is_object (event : JSValue) :
  truthy (get_prop_opt event "meta") = true ->
  exists props, event = JObj props.
Proof.
  destruct event; simpl; try discriminate.
  intros _. now exists props.
Qed.

(** Reading a property of a truthy value never throws. *)
Lemma get_prop_truthy (v : JSValue) (k : string) :
  truthy v = true -> get_prop v k = Ok (get_prop_opt v k).
Proof. destruct v; simpl; intros H; try discriminate; reflexivity. Qed.

Lemma strict_eq_str_true (v : JSValue) (lit : string) :
  strict_eq_str v lit = true -> v = JStr lit.
Proof.
  destruct v; simpl; try discriminate.
  intros H. apply String.eqb_eq in H. now subst.
Qed.

(** No frame makes the handler throw, and a frame without a truthy
    metadata section leaves no trace. *)
Lemma handleEvent_never_throws (c : Controller) (w : World) (event : JSValue) :
  fst (run (handleEvent event) c w) = Ok tt.
Proof.
  unfold handleEvent.
  destruct event; simpl; try reflexivity.
  - destruct b; reflexivity.
  - destruct (number_truthy n); reflexivity.
  - destruct (String.eqb s ""); reflexivity.
  - run_js.
    destruct (truthy (own_property "meta" props)) eqn:Hmeta; simpl; [|reflexivity].
    rewrite (get_prop_truthy _ "message" Hmeta).
    repeat match goal with
    | |- context [if ?b then _ else _] => destruct b
    end; reflexivity.
Qed.

Lemma handleEvent_drops_without_meta (c : Controller) (w : World) (event : JSValue) :
  truthy (get_prop_opt event "meta") = false ->
  run (handleEvent event) c w = (Ok tt, w).
Proof.
  unfold handleEvent.
  destruct event; simpl; intros Hmeta; try reflexivity.
  - destruct b; reflexivity.
  - destruct (number_truthy n); reflexivity.
  - destruct (String.eqb s ""); reflexivity.
  - run_js. now rewrite Hmeta.
Qed.

(** [handleEvent] at the spec's own example, the tag [station-connect] with
    data [{mac:"AA"}]: the frame takes the default branch. *)
Lemma handleEvent_station_connect_is_generic :
  let w' := snd (run (handleEvent (frame "station-connect" mac_AA)) obliging (boot minimal_api)) in
  emitted w' =
    [ mkNotification "event"
        (PValue (JObj [("type", JStr "station-connect"); ("data", mac_AA)]));
      mkNotification "raw_event" (PValue (frame "station-connect" mac_AA)) ]
  /\ count_emitted "client.connected" w' = 0.
Proof. split; reflexivity. Qed.

(** C1 (amended).  For every frame whose metadata section is present: the
    tag [sta:connect] emits [client.connected], [sta:disconnect] emits
    [client.disconnected], [ap:detected] emits [device.detected], [ap:lost]
    emits [device.lost], each carrying the data section of the frame, or an
    empty object when that section is missing or falsy; any other tag emits
    [event] carrying the tag and that payload.  In every case exactly one
    [raw_event] carrying the frame follows, nothing else is emitted and
    nothing is thrown. *)
Theorem handleEvent_routes (c : Controller) (w : World) (event : JSValue) :
  truthy (get_prop_opt event "meta") = true ->
  let tag := get_prop_opt (get_prop_opt event "meta") "message" in
  let eventData := js_or (get_prop_opt event "data") (JObj []) in
  exists typed : Notification,
    run (handleEvent event) c w
      = (Ok tt, notified w [typed; mkNotification "raw_event" (PValue event)])
    /\ (tag = JStr "sta:connect" ->
        typed = mkNotification "client.connected" (PValue eventData))
    /\ (tag = JStr "sta:disconnect" ->
        typed = mkNotification "client.disconnected" (PValue eventData))
    /\ (tag = JStr "ap:detected" ->
        typed = mkNotification "device.detected" (PValue eventData))
    /\ (tag = JStr "ap:lost" ->
        typed = mkNotification "device.lost" (PValue eventData))
    /\ (tag <> JStr "sta:connect" -> tag <> JStr "sta:disconnect" ->
        tag <> JStr "ap:detected" -> tag <> JStr "ap:lost" ->
        typed = mkNotification "event"
                  (PValue (JObj [("type", tag); ("data", eventData)]))).
Proof.
  intros Hmeta tag eventData.
  destruct (present_meta_is_object event Hmeta) as [props ->].
  simpl in Hmeta, tag, eventData.
  unfold handleEvent. simpl truthy. simpl negb. cbv iota.
  run_js. rewrite Hmeta. simpl.
  rewrite (get_prop_truthy _ "message" Hmeta). fold tag. fold eventData.
  destruct (strict_eq_str tag "sta:connect") eqn:E1;
    [|destruct (strict_eq_str tag "sta:disconnect") eqn:E2;
      [|destruct (strict_eq_str tag "ap:detected") eqn:E3;
        [|destruct (strict_eq_str tag "ap:lost") eqn:E4]]];
    simpl; rewrite <- app_assoc; simpl;
    eexists; (split; [reflexivity|]).
  all: repeat split; intros; subst; try reflexivity;
    repeat match goal with
    | H : ?t = JStr _ |- _ => rewrite H in *
    end; simpl in *; try discriminate.
  all: match goal with
       | E : strict_eq_str _ _ = true |- _ =>
           apply strict_eq_str_true in E; contradiction
       end.
Qed.

Lemma handleEvent_routes_witness :
  exists typed : Notification,
    run (handleEvent (frame "sta:connect" mac_AA)) obliging (boot minimal_api)
      = (Ok tt, notified (boot minimal_api)
                  [typed; mkNotification "raw_event" (PValue (frame "sta:connect" mac_AA))])
    /\ typed = mkNotification "client.connected" (PValue mac_AA).
Proof.
  destruct (handleEvent_routes obliging (boot minimal_api) (frame "sta:connect" mac_AA) eq_refl)
    as [typed [Hrun [Hconnect _]]].
  exists typed. split; [exact Hrun | exact (Hconnect eq_refl)].
Defined.

(** The frame [{meta:{}}] has a metadata section, an empty object, which is
    truthy: the frame is routed to the default branch with an undefined
    tag. *)
Lemma handleEvent_empty_meta_is_routed :
  let w' := snd (run (handleEvent (JObj [("meta", JObj [])])) obliging (boot minimal_api)) in
  emitted w' =
    [ mkNotification "event" (PValue (JObj [("type", JUndefined); ("data", JObj [])]));
      mkNotification "raw_event" (PValue (JObj [("meta", JObj [])])) ]
  /\ count_emitted "event" w' = 1.
Proof. split; reflexivity. Qed.

(** C4 (amended).  None of [null], [undefined], [{}], [{meta:null}],
    [{meta:{}}], [{data:"x"}] makes the handler throw.  The five frames
    without a truthy metadata section are dropped: nothing is emitted and
    the client is unchanged.  [{meta:{}}] is not dropped: it emits a generic
    [event] with an undefined tag and an empty payload, then [raw_event]. *)
Theorem handleEvent_malformed (c : Controller) (w : World) :
  run (handleEvent JNull) c w = (Ok tt, w)
  /\ run (handleEvent JUndefined) c w = (Ok tt, w)
  /\ run (handleEvent (JObj [])) c w = (Ok tt, w)
  /\ run (handleEvent (JObj [("meta", JNull)])) c w = (Ok tt, w)
  /\ run (handleEvent (JObj [("data", JStr "x")])) c w = (Ok tt, w)
  /\ run (handleEvent (JObj [("meta", JObj [])])) c w
     = (Ok tt,
        notified w
          [ mkNotification "event" (PValue (JObj [("type", JUndefined); ("data", JObj [])]));
            mkNotification "raw_event" (PValue (JObj [("meta", JObj [])])) ]).
Proof.
  repeat split; try reflexivity.
  run_js. unfold handleEvent. run_js. now rewrite <- app_assoc.
Qed.

(** * Request pipeline *)

(** The result code decides [envelope_ok]. *)
Lemma envelope_ok_rc (envelope : JSValue) :
  envelope_ok envelope
  = Ok (strict_eq_str (get_prop_opt (get_prop_opt envelope "meta") "rc") "ok").
Proof.
  unfold envelope_ok.
  destruct envelope; simpl; try reflexivity.
  - destruct b; reflexivity.
  - destruct (number_truthy n); reflexivity.
  - destruct (String.eqb s ""); reflexivity.
  - destruct (own_property "meta" props); simpl; try reflexivity.
    + destruct b; reflexivity.
    + destruct (number_truthy n); reflexivity.
    + destruct (String.eqb s ""); reflexivity.
Qed.

Lemma strict_eq_str_false (v : JSValue) (lit : string) :
  v <> JStr lit -> strict_eq_str v lit = false.
Proof.
  destruct v; simpl; try reflexivity.
  intros H. apply String.eqb_neq. congruence.
Qed.

(** [request] is the authenticated call followed by the unwrapping of the
    envelope. *)
Lemma request_after_transport (c : Controller) (w w1 : World)
    (endpoint : string) (method : Method) (body : JSValue) (response : AxiosResponse) :
  run (ensureAuthenticated ;; client (request_config endpoint method body)) c w
    = (Ok response, w1) ->
  run (request endpoint method body) c w
  = (if strict_eq_str (rc_of (data response)) "ok"
     then Ok (js_or (get_prop_opt (data response) "data") (data response))
     else api_error (data response),
     w1).
Proof.
  unfold run, request. unfold bind at 1 2 3.
  destruct (ensureAuthenticated c w) as [[[]|t|] w0]; try discriminate.
  unfold bind at 1.
  destruct (client (request_config endpoint method body) c w0) as [[r|t|] w2];
    try discriminate.
  intros H. injection H as -> ->.
  unfold bind at 1. unfold lift at 1. rewrite envelope_ok_rc. fold (rc_of (data response)).
  destruct (strict_eq_str (rc_of (data response)) "ok") eqn:E.
  - apply strict_eq_str_true in E. unfold rc_of in E.
    destruct (data response) as [| | | | | |props] eqn:D; simpl in E; try discriminate.
    reflexivity.
  - unfold api_error, msg_of, bind, lift, throw.
    now destruct (ToString _).
Qed.

(** An answer with result code ['ok'] and the data section [false]: the
    data section is there, and the pipeline returns the envelope. *)
Lemma request_returns_envelope_for_falsy_data :
  fst (run (request "/api/self" GET JUndefined) (serving (JBool false)) (boot signed_in))
  = Ok (JObj [("meta", JObj [("rc", JStr "ok")]); ("data", JBool false)]).
Proof. reflexivity. Qed.

(** C2 (amended).  After a transport success the envelope decides.  With
    result code ['ok'] the pipeline returns the data section when that
    section is truthy, and the whole envelope when the section is missing or
    falsy.  With any other result code, or none, the pipeline never
    returns: it throws a [UniFiError] whose message is [API Error: ]
    followed by the message of the server when that is a non-empty string,
    and by [Unknown error] when the server sent no message or a falsy
    one. *)
Theorem request_unwraps_envelope (c : Controller) (w w1 : World)
    (endpoint : string) (method : Method) (body : JSValue) (response : AxiosResponse) :
  run (ensureAuthenticated ;; client (request_config endpoint method body)) c w
    = (Ok response, w1) ->
  let envelope := data response in
  let rc := get_prop_opt (get_prop_opt envelope "meta") "rc" in
  let section := get_prop_opt envelope "data" in
  let msg := get_prop_opt (get_prop_opt envelope "meta") "msg" in
  (rc = JStr "ok" ->
     exists v, run (request endpoint method body) c w = (Ok v, w1)
       /\ (truthy section = true -> v = section)
       /\ (section = JUndefined -> v = envelope)
       /\ (truthy section = false -> v = envelope))
  /\ (rc <> JStr "ok" ->
      (forall s, msg = JStr s -> s <> "" ->
         run (request endpoint method body) c w
         = (Throw (ThrowUniFi (new_UniFiError ("API Error: " ++ s) None)), w1))
      /\ (truthy msg = false ->
          run (request endpoint method body) c w
          = (Throw (ThrowUniFi (new_UniFiError "API Error: Unknown error" None)), w1))
      /\ (forall v, fst (run (request endpoint method body) c w) <> Ok v)).
Proof.
  intros Hcall envelope rc section msg.
  rewrite (request_after_transport _ _ _ _ _ _ _ Hcall).
  unfold rc_of. fold envelope. fold rc. fold section.
  split; intros Hrc.
  - rewrite Hrc. simpl. eexists. split; [reflexivity|].
    unfold js_or. repeat split; intros H; rewrite H; reflexivity.
  - rewrite (strict_eq_str_false _ _ Hrc).
    unfold api_error, msg_of. fold envelope. fold msg. unfold js_or.
    split; [|split].
    + intros s -> Hs. simpl. apply String.eqb_neq in Hs. now rewrite Hs.
    + intros ->. reflexivity.
    + intros v. simpl. destruct (ToString _); discriminate.
Qed.

Lemma request_unwraps_envelope_witness :
  (exists v,
     run (request "/api/self" GET JUndefined) obliging (boot minimal_api)
       = (Ok v, snd (run (ensureAuthenticated ;; client (request_config "/api/self" GET JUndefined))
                         obliging (boot minimal_api)))
     /\ v = JArr [])
  /\ run (request "/api/self" GET JUndefined) (rejecting (JStr "api.err.NoSiteContext"))
          (boot signed_in)
     = (Throw (ThrowUniFi (new_UniFiError "API Error: api.err.NoSiteContext" None)),
        snd (run (ensureAuthenticated ;; client (request_config "/api/self" GET JUndefined))
                 (rejecting (JStr "api.err.NoSiteContext")) (boot signed_in))).
Proof.
  split.
  - destruct (request_unwraps_envelope obliging (boot minimal_api)
                (snd (run (ensureAuthenticated ;; client (request_config "/api/self" GET JUndefined))
                          obliging (boot minimal_api)))
                "/api/self" GET JUndefined
                (mkResponse 200 None (envelope_rc "ok")) eq_refl) as [Hok _].
    destruct (Hok eq_refl) as (v & Hrun & Hsection & _).
    exists v. split; [exact Hrun | exact (Hsection eq_refl)].
  - destruct (request_unwraps_envelope (rejecting (JStr "api.err.NoSiteContext")) (boot signed_in)
                (snd (run (ensureAuthenticated ;; client (request_config "/api/self" GET JUndefined))
                          (rejecting (JStr "api.err.NoSiteContext")) (boot signed_in)))
                "/api/self" GET JUndefined
                (mkResponse 200 None
                   (JObj [("meta", JObj [("rc", JStr "error");
                                         ("msg", JStr "api.err.NoSiteContext")]);
                          ("data", JArr [])])) eq_refl) as [_ Hko].
    assert (Hrc : JStr "error" <> JStr "ok") by discriminate.
    destruct (Hko Hrc) as (Hmsg & _).
    apply Hmsg; [reflexivity | discriminate].
Defined.

(** * Session *)

(** A call through the axios instance touches the session fields and the
    list of requests only: it emits nothing and leaves the socket alone. *)
Lemma client_frame (c : Controller) (w w1 : World) (config : AxiosRequest)
    (r : Result AxiosResponse) :
  run (client config) c w = (r, w1) ->
  emitted w1 = emitted w /\ opened w1 = opened w /\ closed w1 = closed w
  /\ eventSocket (api w1) = eventSocket (api w)
  /\ options (api w1) = options (api w)
  /\ baseURL (api w1) = baseURL (api w)
  /\ List.length (sent w1) = S (List.length (sent w)).
Proof.
  unfold run, client, request_interceptor, transport, response_fulfilled, response_rejected.
  run_js.
  destruct (respond c _ _) as [response|error].
  - destruct (set_cookie response); simpl; intros H; injection H as <- <-; simpl;
      rewrite length_app; simpl; repeat split; lia.
  - destruct (status_is_401 error); simpl.
    + intros H; injection H as <- <-; simpl.
      rewrite length_app; simpl; repeat split; lia.
    + destruct (code_is error "ECONNREFUSED" || code_is error "ENOTFOUND"); simpl;
        intros H; injection H as <- <-; simpl;
        rewrite length_app; simpl; repeat split; lia.
Qed.

(** A session with an open event socket whose controller then becomes
    unreachable: [logout] swallows the failure of the call, and with it the
    rest of the [try] block. *)
Lemma logout_failure_skips_cleanup :
  let r := run (enableEvents ;; logout) (drops_after 1) (boot minimal_api) in
  fst r = Ok true
  /\ isAuthenticated (api (snd r)) = false
  /\ count_emitted "disconnected" (snd r) = 0
  /\ eventSocket (api (snd r))
     = Some (mkWebSocket "wss://test.local:8443/wss/s/default/events" "" false)
  /\ closed (snd r) = [].
Proof. repeat split; reflexivity. Qed.

(** C3 (amended).  [logout] always returns [true] and always leaves
    [isAuthenticated = false].  When the logout call to the controller
    succeeds it also clears the cookies and the CSRF token, closes the event
    socket if one is open and clears its handle, and emits exactly one
    [disconnected]. *)
Theorem logout_ends_session (c : Controller) (w : World) :
  exists w',
    run logout c w = (Ok true, w')
    /\ isAuthenticated (api w') = false
    /\ (forall response w1,
          run (client logout_request) c w = (Ok response, w1) ->
          cookies (api w') = ""
          /\ csrfToken (api w') = JStr ""
          /\ eventSocket (api w') = None
          /\ closed w'
             = (closed w ++ match eventSocket (api w) with
                            | Some sock => [sock]
                            | None => []
                            end)%list
          /\ emitted w' = (emitted w ++ [mkNotification "disconnected" NoPayload])%list).
Proof.
  unfold run, logout, try_catch. unfold bind at 1.
  destruct (client logout_request c w) as [[response|t|] w1] eqn:Hcall.
  - destruct (client_frame _ _ _ _ _ Hcall) as (He & _ & Hc & Hs & _).
    run_js. unfold close. rewrite Hs.
    destruct (eventSocket (api w)) as [sock|]; simpl;
      eexists; (split; [reflexivity|]); simpl; (split; [reflexivity|]);
      intros response' w1' H; injection H as _ <-;
      rewrite <- He, <- Hc; repeat split; try reflexivity.
    all: try assumption; symmetry; apply app_nil_r.
  - run_js. eexists. split; [reflexivity|]. split; [reflexivity|]. discriminate.
  - exfalso. revert Hcall.
    unfold client, request_interceptor, transport, response_fulfilled, response_rejected.
    run_js.
    destruct (respond c _ _) as [response|error].
    + destruct (set_cookie response); discriminate.
    + destruct (status_is_401 error); [discriminate|].
      destruct (code_is error "ECONNREFUSED" || code_is error "ENOTFOUND"); discriminate.
Qed.

Lemma logout_ends_session_witness :
  exists w',
    run logout obliging (boot signed_in) = (Ok true, w')
    /\ isAuthenticated (api w') = false
    /\ emitted w' = [mkNotification "disconnected" NoPayload].
Proof.
  destruct (logout_ends_session obliging (boot signed_in)) as [w' (Hrun & Hauth & Hclean)].
  exists w'. split; [exact Hrun|]. split; [exact Hauth|].
  destruct (Hclean (mkResponse 200 None (envelope_rc "ok"))
              (snd (run (client logout_request) obliging (boot signed_in))) eq_refl)
    as (_ & _ & _ & _ & Hemit).
  exact Hemit.
Defined.

(** * Transport failures *)

(** Putting a request on the wire leaves the instance as it was. *)
Lemma sending_keeps_session (c : Controller) (w w0 : World)
    (config : AxiosRequest) (outcome : HttpOutcome) :
  run (req <- request_interceptor config ;; transport req) c w = (Ok outcome, w0) ->
  api w0 = api w /\ emitted w0 = emitted w.
Proof.
  unfold run, request_interceptor, transport. run_js.
  intros H. injection H as _ <-. split; reflexivity.
Qed.

(** The axios instance: the interceptors around the transport. *)
Lemma client_after_transport (c : Controller) (w w0 : World)
    (config : AxiosRequest) (outcome : HttpOutcome) :
  run (req <- request_interceptor config ;; transport req) c w = (Ok outcome, w0) ->
  run (client config) c w
  = match outcome with
    | Fulfilled response => response_fulfilled response c w0
    | Failed error => response_rejected error c w0
    end.
Proof.
  unfold run, client, request_interceptor, transport. run_js.
  intros H. injection H as <- <-. now destruct (respond c _ _).
Qed.

(** C5.  A transport failure met by a call of the axios instance is
    classified by the response interceptor.  A response with status 401
    becomes the [INVALID_CREDENTIALS] error and clears [isAuthenticated].
    Otherwise the codes [ECONNREFUSED] and [ENOTFOUND] become the
    [CONNECTION_ERROR] error, whose message names the base address.  Every
    other error is thrown again as it came, and the session is untouched. *)
Theorem transport_failure_classified (c : Controller) (w w0 : World)
    (config : AxiosRequest) (error : AxiosError) :
  run (req <- request_interceptor config ;; transport req) c w = (Ok (Failed error), w0) ->
  ((exists r, ax_response error = Some r /\ status r = 401%Z) ->
     exists w',
       run (client config) c w
         = (Throw (ThrowUniFi (new_UniFiError "Authentication failed"
                                 (Some "INVALID_CREDENTIALS"))), w')
       /\ isAuthenticated (api w') = false)
  /\ (~ (exists r, ax_response error = Some r /\ status r = 401%Z) ->
      ax_code error = Some "ECONNREFUSED" \/ ax_code error = Some "ENOTFOUND" ->
      run (client config) c w
        = (Throw (ThrowUniFi (new_UniFiError
                    ("Cannot connect to UniFi Controller at " ++ baseURL (api w))
                    (Some "CONNECTION_ERROR"))), w0))
  /\ (~ (exists r, ax_response error = Some r /\ status r = 401%Z) ->
      ax_code error <> Some "ECONNREFUSED" -> ax_code error <> Some "ENOTFOUND" ->
      run (client config) c w = (Throw (ThrowAxios error), w0)
      /\ api w0 = api w).
Proof.
  intros Hsent.
  destruct (sending_keeps_session _ _ _ _ _ Hsent) as [Hapi _].
  rewrite (client_after_transport _ _ _ _ _ Hsent).
  assert (H401 : ~ (exists r, ax_response error = Some r /\ status r = 401%Z) ->
                 status_is_401 error = false).
  { unfold status_is_401. intros Hno.
    destruct (ax_response error) as [r|]; [|reflexivity].
    apply Z.eqb_neq. intros Hs. apply Hno. now exists r. }
  unfold response_rejected.
  split; [|split].
  - intros [r [Hr Hs]]. unfold status_is_401. rewrite Hr, Hs. simpl. run_js.
    eexists. split; reflexivity.
  - intros Hno Hcode. rewrite (H401 Hno). unfold code_is. rewrite <- Hapi.
    destruct Hcode as [-> | ->]; reflexivity.
  - intros Hno Hrefused Hnotfound. rewrite (H401 Hno). unfold code_is.
    split; [|exact Hapi].
    destruct (ax_code error) as [k|]; [|reflexivity].
    assert (E1 : String.eqb k "ECONNREFUSED" = false) by (apply String.eqb_neq; congruence).
    assert (E2 : String.eqb k "ENOTFOUND" = false) by (apply String.eqb_neq; congruence).
    rewrite E1, E2. reflexivity.
Qed.

Lemma transport_failure_classified_witness :
  fst (run (client logout_request) (failing unauthorized) (boot signed_in))
    = Throw (ThrowUniFi (new_UniFiError "Authentication failed" (Some "INVALID_CREDENTIALS")))
  /\ fst (run (client logout_request) (failing refused) (boot signed_in))
    = Throw (ThrowUniFi (new_UniFiError
               "Cannot connect to UniFi Controller at https://test.local:8443"
               (Some "CONNECTION_ERROR")))
  /\ fst (run (client logout_request) (failing timed_out) (boot signed_in))
    = Throw (ThrowAxios timed_out).
Proof.
  split; [|split].
  - destruct (transport_failure_classified (failing unauthorized) (boot signed_in)
                (snd (run (req <- request_interceptor logout_request ;; transport req)
                          (failing unauthorized) (boot signed_in)))
                logout_request unauthorized eq_refl) as [H401 _].
    destruct H401 as [w' [Hrun _]].
    + exists (mkResponse 401 None JUndefined). split; reflexivity.
    + rewrite Hrun. reflexivity.
  - destruct (transport_failure_classified (failing refused) (boot signed_in)
                (snd (run (req <- request_interceptor logout_request ;; transport req)
                          (failing refused) (boot signed_in)))
                logout_request refused eq_refl) as [_ [Hconn _]].
    rewrite Hconn.
    + reflexivity.
    + intros [r [Hr _]]. discriminate Hr.
    + left. reflexivity.
  - destruct (transport_failure_classified (failing timed_out) (boot signed_in)
                (snd (run (req <- request_interceptor logout_request ;; transport req)
                          (failing timed_out) (boot signed_in)))
                logout_request timed_out eq_refl) as [_ [_ Hother]].
    destruct Hother as [Hrun _].
    + intros [r [Hr _]]. discriminate Hr.
    + discriminate.
    + discriminate.
    + rewrite Hrun. reflexivity.
Defined.

(** The pipeline has no handler of its own: what the authenticated call
    throws is what [request] throws. *)
Lemma request_propagates (c : Controller) (w w1 : World)
    (endpoint : string) (method : Method) (body : JSValue) (t : Thrown) :
  run (ensureAuthenticated ;; client (request_config endpoint method body)) c w
    = (Throw t, w1) ->
  run (request endpoint method body) c w = (Throw t, w1).
Proof.
  unfold run, request. unfold bind at 1 2 3.
  destruct (ensureAuthenticated c w) as [[[]|t0|] w0]; try discriminate.
  - unfold bind at 1.
    destruct (client (request_config endpoint method body) c w0) as [[r|t0|] w2];
      try discriminate.
    intros H. injection H as -> ->. reflexivity.
  - intros H. injection H as -> ->. reflexivity.
Qed.

(** * Construction *)

(** An empty host is a host that is present, and the constructor throws. *)
Lemma constructor_rejects_empty_host :
  constructor empty_host_config
  = Throw (ThrowUniFi (new_UniFiError "Host, username, and password are required" None)).
Proof. reflexivity. Qed.

(** C6 (amended).  The constructor throws its configuration error when one
    of host, username and password is missing or is the empty string.  With
    the three of them non-empty and no optional field it yields the
    defaults: port 8443, site [default], [ssl] on, [strictSSL] off, timeout
    30000, on a fresh unauthenticated session. *)
Theorem constructor_requires_and_defaults :
  (forall config : UniFiConfig,
     cfg_host config = None \/ cfg_host config = Some ""
     \/ cfg_username config = None \/ cfg_username config = Some ""
     \/ cfg_password config = None \/ cfg_password config = Some "" ->
     constructor config
     = Throw (ThrowUniFi (new_UniFiError "Host, username, and password are required" None)))
  /\ (forall h u p : string,
        h <> "" -> u <> "" -> p <> "" ->
        constructor (mkConfig (Some h) None (Some u) (Some p) None None None None)
        = Ok {| options := {| host := h; port := 8443; username := u; password := p;
                              site := "default"; ssl := true; strictSSL := false;
                              timeout := 30000 |};
                baseURL := "https://" ++ h ++ ":8443";
                cookies := ""; csrfToken := JStr ""; eventSocket := None;
                isAuthenticated := false |}).
Proof.
  split.
  - intros config H. unfold constructor.
    assert (E : falsy_field (cfg_host config) || falsy_field (cfg_username config)
                || falsy_field (cfg_password config) = true).
    { destruct H as [H | [H | [H | [H | [H | H]]]]]; rewrite H; simpl;
        repeat rewrite orb_true_r; reflexivity. }
    now rewrite E.
  - intros h u p Hh Hu Hp. unfold constructor. simpl.
    apply String.eqb_neq in Hh, Hu, Hp. rewrite Hh, Hu, Hp. reflexivity.
Qed.

Lemma constructor_requires_and_defaults_witness :
  constructor (mkConfig None None None None None None None None)
    = Throw (ThrowUniFi (new_UniFiError "Host, username, and password are required" None))
  /\ constructor minimal_config = Ok minimal_api.
Proof.
  destruct constructor_requires_and_defaults as [Hmissing Hdefaults].
  split.
  - apply Hmissing. left. reflexivity.
  - apply (Hdefaults "test.local" "user" "pass"); discriminate.
Defined.

(** * Authentication *)

(** A call through the axios instance settles: it returns or it throws. *)
Lemma client_settles (c : Controller) (w : World) (config : AxiosRequest) :
  fst (run (client config) c w) <> Pending.
Proof.
  unfold run, client, request_interceptor, transport, response_fulfilled, response_rejected.
  run_js.
  destruct (respond c _ _) as [response|error].
  - destruct (set_cookie response); discriminate.
  - destruct (status_is_401 error); [discriminate|].
    destruct (code_is error "ECONNREFUSED" || code_is error "ENOTFOUND"); discriminate.
Qed.

(** [login] settles, leaves the sockets alone, and ends authenticated
    exactly when it returns. *)
Lemma login_frame (c : Controller) (w w1 : World) (r : Result bool) :
  run login c w = (r, w1) ->
  opened w1 = opened w /\ closed w1 = closed w
  /\ eventSocket (api w1) = eventSocket (api w)
  /\ baseURL (api w1) = baseURL (api w)
  /\ ((r = Ok true /\ isAuthenticated (api w1) = true)
      \/ (exists t, r = Throw t) /\ isAuthenticated (api w1) = false).
Proof.
  unfold run, login, try_catch. unfold bind at 1. unfold this at 1. unfold bind at 1.
  destruct (client (login_request (api w)) c w) as [[response|t|] w0] eqn:Hcall.
  - destruct (client_frame _ _ _ _ _ Hcall) as (_ & Ho & Hc & Hs & _ & Hb & _).
    unfold bind at 1. unfold lift at 1. rewrite envelope_ok_rc.
    destruct (strict_eq_str _ "ok") eqn:E.
    + apply strict_eq_str_true in E.
      destruct (data response) as [| | | | | |props]; simpl in E; try discriminate.
      destruct (own_property "meta" props) as [| | | | | |mprops] eqn:Hm; simpl in E;
        try discriminate.
      run_js. rewrite Hm. simpl.
      destruct (truthy (own_property "csrf_token" mprops)); simpl;
        intros H; injection H as <- <-; simpl;
        rewrite Ho, Hc, Hs, Hb; repeat split; left; split; reflexivity.
    + run_js. intros H; injection H as <- <-; simpl.
      rewrite Ho, Hc, Hs, Hb; repeat split. right. split; [eauto|reflexivity].
  - destruct (client_frame _ _ _ _ _ Hcall) as (_ & Ho & Hc & Hs & _ & Hb & _).
    run_js. intros H; injection H as <- <-; simpl.
    rewrite Ho, Hc, Hs, Hb; repeat split. right. split; [eauto|reflexivity].
  - exfalso. apply (client_settles c w (login_request (api w))).
    unfold run. now rewrite Hcall.
Qed.

Lemma ensureAuthenticated_frame (c : Controller) (w w1 : World) (r : Result unit) :
  run ensureAuthenticated c w = (r, w1) ->
  opened w1 = opened w /\ closed w1 = closed w
  /\ eventSocket (api w1) = eventSocket (api w)
  /\ baseURL (api w1) = baseURL (api w)
  /\ ((r = Ok tt /\ isAuthenticated (api w1) = true)
      \/ (exists t, r = Throw t) /\ isAuthenticated (api w1) = false).
Proof.
  unfold run, ensureAuthenticated. unfold bind at 1. unfold this at 1.
  destruct (isAuthenticated (api w)) eqn:Ha; simpl.
  - unfold ret. intros H; injection H as <- <-. repeat split. left. now split.
  - unfold bind.
    destruct (login c w) as [rl wl] eqn:Hl.
    destruct (login_frame _ _ _ _ Hl) as (Ho & Hc & Hs & Hb & Hr).
    destruct Hr as [[-> Hauth] | [[t ->] Hauth]];
      unfold ret; intros H; injection H as <- <-; repeat split; try assumption.
    + left. now split.
    + right. split; [eauto|assumption].
Qed.

(** An authenticated session stays as it is. *)
Lemma ensureAuthenticated_noop (c : Controller) (w : World) :
  isAuthenticated (api w) = true -> run ensureAuthenticated c w = (Ok tt, w).
Proof.
  intros Ha. unfold run, ensureAuthenticated, bind, this. now rewrite Ha.
Qed.

(** * Event connection *)

(** With a handle and an authenticated session [enableEvents] does
    nothing. *)
Lemma enableEvents_connected (c : Controller) (w : World) :
  eventSocket (api w) <> None ->
  isAuthenticated (api w) = true ->
  run enableEvents c w = (Ok true, w).
Proof.
  intros Hs Ha. unfold run, enableEvents. unfold bind at 1.
  rewrite_run (ensureAuthenticated_noop c w Ha).
  unfold bind, this, ret.
  destruct (eventSocket (api w)); [reflexivity | contradiction].
Qed.

(** One call opens no socket, or it opens one and leaves its handle on an
    authenticated session.  A call that returns leaves a handle on an
    authenticated session. *)
Lemma enableEvents_opens (c : Controller) (w w1 : World) (r : Result bool) :
  run enableEvents c w = (r, w1) ->
  (opened w1 = opened w
   \/ (exists sock, opened w1 = (opened w ++ [sock])%list)
      /\ eventSocket (api w1) <> None /\ isAuthenticated (api w1) = true)
  /\ (forall b, r = Ok b ->
      b = true /\ eventSocket (api w1) <> None /\ isAuthenticated (api w1) = true).
Proof.
  unfold run, enableEvents. unfold bind at 1.
  destruct (ensureAuthenticated c w) as [re we] eqn:He.
  destruct (ensureAuthenticated_frame _ _ _ _ He) as (Ho & _ & Hs & _ & Hr).
  destruct Hr as [[-> Hauth] | [[t ->] Hauth]].
  - unfold bind at 1. unfold this at 1.
    destruct (eventSocket (api we)) as [sock|] eqn:Hsock.
    + unfold ret. intros H; injection H as <- <-.
      split; [left; exact Ho|].
      intros b Hb. injection Hb as <-. rewrite Hsock. repeat split; [discriminate|exact Hauth].
    + unfold new_WebSocket. run_js.
      destruct (handshake c _ _); simpl; intros H; injection H as <- <-; simpl;
        (split; [right; rewrite Ho; split; [eexists; reflexivity|];
                 split; [discriminate|exact Hauth]|]);
        intros b Hb; try discriminate Hb.
      injection Hb as <-. repeat split; [discriminate|exact Hauth].
  - intros H; injection H as <- <-. split; [left; exact Ho|].
    intros b Hb. discriminate Hb.
Qed.

(** A session whose socket is open, then invalidated by a 401 on a data
    call: of two calls in succession the second finds the handle, and yet
    logs in again, sends a request and rejects. *)
Lemma enableEvents_second_call_logs_in :
  let c := expires_after 1 in
  let w1 := snd (run enableEvents c (boot minimal_api)) in
  let w2 := snd (run getDevices c w1) in
  let first := run enableEvents c w2 in
  let second := run enableEvents c (snd first) in
  eventSocket (api (snd first))
    = Some (mkWebSocket "wss://test.local:8443/wss/s/default/events" "" false)
  /\ closed (snd first) = []
  /\ fst second
     = Throw (ThrowUniFi (new_UniFiError "Authentication failed" (Some "INVALID_CREDENTIALS")))
  /\ List.length (sent (snd second)) = S (List.length (sent (snd first))).
Proof. repeat split; reflexivity. Qed.

(** C7 (amended).  Two calls of [enableEvents] in succession open at most
    one socket.  When the second call finds a handle and an authenticated
    session, as it does whenever the first call returned or opened a socket,
    it returns [true] at once and changes nothing. *)
Theorem enableEvents_idempotent (c : Controller) (w : World) :
  let first := run enableEvents c w in
  let second := run enableEvents c (snd first) in
  List.length (opened (snd second)) <= S (List.length (opened w))
  /\ (eventSocket (api (snd first)) <> None ->
      isAuthenticated (api (snd first)) = true ->
      second = (Ok true, snd first))
  /\ (fst first = Ok true -> second = (Ok true, snd first))
  /\ (opened (snd first) <> opened w -> second = (Ok true, snd first)).
Proof.
  intros first second. subst second.
  destruct first as [r1 w1] eqn:Hfirst. simpl.
  destruct (enableEvents_opens _ _ _ _ Hfirst) as [Hopen1 Hret1].
  split; [|split; [|split]].
  - destruct Hopen1 as [Hsame | ([sock Hone] & Hs & Ha)].
    + destruct (run enableEvents c w1) as [r2 w2] eqn:Hsecond. simpl.
      destruct (enableEvents_opens _ _ _ _ Hsecond) as [[Hsame2 | ([sock Hone2] & _)] _].
      * rewrite Hsame2, Hsame. lia.
      * rewrite Hone2, Hsame, length_app. simpl. lia.
    + rewrite (enableEvents_connected c w1 Hs Ha). simpl.
      rewrite Hone, length_app. simpl. lia.
  - intros Hs Ha. exact (enableEvents_connected c w1 Hs Ha).
  - intros ->. destruct (Hret1 true eq_refl) as (_ & Hs & Ha).
    exact (enableEvents_connected c w1 Hs Ha).
  - intros Hchanged. destruct Hopen1 as [Hsame | (_ & Hs & Ha)]; [contradiction|].
    exact (enableEvents_connected c w1 Hs Ha).
Qed.

Lemma enableEvents_idempotent_witness :
  run enableEvents obliging (snd (run enableEvents obliging (boot minimal_api)))
  = (Ok true, snd (run enableEvents obliging (boot minimal_api)))
  /\ List.length
       (opened (snd (run enableEvents obliging
                       (snd (run enableEvents obliging (boot minimal_api)))))) <= 1.
Proof.
  destruct (enableEvents_idempotent obliging (boot minimal_api)) as (Hbound & _ & Hfirst & _).
  split.
  - apply Hfirst. reflexivity.
  - exact Hbound.
Defined.

(** * Lookups by identifier *)

Lemma lower_char_same_letter (a b : ascii) :
  lower_char a = lower_char b <-> same_letter a b.
Proof.
  unfold lower_char, same_letter, is_upper.
  pose proof (nat_ascii_bounded a) as Ba. pose proof (nat_ascii_bounded b) as Bb.
  destruct (Nat.leb 65 (nat_of_ascii a)) eqn:A1;
    destruct (Nat.leb (nat_of_ascii a) 90) eqn:A2;
    destruct (Nat.leb 65 (nat_of_ascii b)) eqn:B1;
    destruct (Nat.leb (nat_of_ascii b) 90) eqn:B2; simpl;
    repeat match goal with
    | H : Nat.leb _ _ = true |- _ => apply Nat.leb_le in H
    | H : Nat.leb _ _ = false |- _ => apply Nat.leb_gt in H
    end;
    (split; [intros H | intros [H | [[Hu H] | [Hu H]]]]);
    try (subst; solve [auto | lia]);
    try lia.
  all: try (apply (f_equal nat_of_ascii) in H;
            repeat rewrite nat_ascii_embedding in H by lia).
  all: try (left; rewrite <- (ascii_nat_embedding a), <- (ascii_nat_embedding b);
            f_equal; lia).
  all: try (right; left; split; [lia|]; lia).
  all: try (right; right; split; [lia|]; lia).
  all: try (rewrite <- (ascii_nat_embedding b), H; reflexivity).
  all: try (rewrite <- (ascii_nat_embedding a), H; reflexivity).
  all: try (rewrite <- H, ascii_nat_embedding; reflexivity).
Qed.

(** [toLowerCase] identifies exactly the identifiers that differ in case
    only. *)
Lemma toLowerCase_same_ignoring_case (s t : string) :
  toLowerCase s = toLowerCase t <-> same_ignoring_case s t.
Proof.
  split.
  - revert t. induction s as [|a s IH]; intros [|b t] H; simpl in H; try discriminate.
    + constructor.
    + injection H as Hc Hrest. constructor.
      * now apply lower_char_same_letter.
      * now apply IH.
  - induction 1 as [|a b s t Hab _ IH]; simpl.
    + reflexivity.
    + apply lower_char_same_letter in Hab. now rewrite Hab, IH.
Qed.

Lemma mac_matches_identified (mac : string) (d : JSValue) :
  identified_by mac d -> mac_matches mac d = Ok true /\ truthy d = true.
Proof.
  intros [s [Hmac Hsame]].
  destruct d; simpl in Hmac; try discriminate.
  unfold mac_matches. simpl. rewrite Hmac.
  apply toLowerCase_same_ignoring_case in Hsame. rewrite Hsame, String.eqb_refl.
  now split.
Qed.

Lemma mac_matches_otherwise (mac : string) (d : JSValue) :
  identified_otherwise mac d -> mac_matches mac d = Ok false.
Proof.
  intros [s [Hmac Hdiff]].
  destruct d; simpl in Hmac; try discriminate.
  unfold mac_matches. simpl. rewrite Hmac. f_equal.
  apply String.eqb_neq. intros H. apply Hdiff.
  now apply toLowerCase_same_ignoring_case.
Qed.

(** The scan stops at the first entry with the identifier. *)
Lemma find_first_identified (mac : string) (pre post : list JSValue) (d : JSValue) :
  Forall (identified_otherwise mac) pre ->
  identified_by mac d ->
  Array_find (mac_matches mac) (pre ++ d :: post) = Ok d.
Proof.
  intros Hpre Hd. induction Hpre as [|x pre Hx _ IH]; simpl.
  - now rewrite (proj1 (mac_matches_identified mac d Hd)).
  - now rewrite (mac_matches_otherwise mac x Hx).
Qed.

Lemma find_none_identified (mac : string) (xs : list JSValue) :
  Forall (identified_otherwise mac) xs ->
  Array_find (mac_matches mac) xs = Ok JUndefined.
Proof.
  induction 1 as [|x xs Hx _ IH]; simpl.
  - reflexivity.
  - now rewrite (mac_matches_otherwise mac x Hx).
Qed.

Lemma identified_apart_otherwise (mac : string) (d : JSValue) :
  identified_apart mac d -> identified_otherwise mac d.
Proof. intros (s & Hs & _ & _ & Hdiff). now exists s. Qed.

Lemma Forall_apart_otherwise (mac : string) (xs : list JSValue) :
  Forall (identified_apart mac) xs -> Forall (identified_otherwise mac) xs.
Proof.
  intros H. eapply Forall_impl; [|exact H].
  intros d. apply identified_apart_otherwise.
Qed.

(** A collection whose first entry has no [mac], ahead of the entry that is
    looked up: the scan reads [d.mac.toLowerCase()] on the first entry and
    the lookup ends in a TypeError, for a device that is there and for a
    client that is not. *)
Lemma lookup_throws_on_entry_without_mac :
  exists msg,
    fst (run (getDevice "aa:bb:cc:00:00:02") (serving (JArr damaged_devices)) (boot signed_in))
      = Throw (ThrowTypeError msg)
    /\ fst (run (getClient "00:11:22:33:44:55") (serving (JArr damaged_devices))
                 (boot signed_in))
      = Throw (ThrowTypeError msg).
Proof. eexists. split; reflexivity. Qed.

(** C8 (amended).  On a collection fetched by [getDevices] (by
    [getClients]) whose entries carry a string [mac], identifiers being
    ASCII text, [getDevice] ([getClient]) returns the first entry whose
    [mac] is the argument up to case, and throws the not-found error when
    every entry has another [mac].  Changing the case of the argument or of
    a stored identifier changes no match. *)
Theorem lookup_by_mac (c : Controller) (w w1 : World) (mac : string)
    (collection : list JSValue) :
  (run getDevices c w = (Ok (JArr collection), w1) ->
     (forall pre d post,
        collection = (pre ++ d :: post)%list ->
        Forall (identified_apart mac) pre -> identified_by mac d ->
        run (getDevice mac) c w = (Ok d, w1))
     /\ (Forall (identified_apart mac) collection ->
         run (getDevice mac) c w
         = (Throw (ThrowUniFi (new_UniFiError ("Device with MAC " ++ mac ++ " not found")
                                 None)), w1)))
  /\ (run getClients c w = (Ok (JArr collection), w1) ->
     (forall pre d post,
        collection = (pre ++ d :: post)%list ->
        Forall (identified_apart mac) pre -> identified_by mac d ->
        run (getClient mac) c w = (Ok d, w1))
     /\ (Forall (identified_apart mac) collection ->
         run (getClient mac) c w
         = (Throw (ThrowUniFi (new_UniFiError ("Client with MAC " ++ mac ++ " not found")
                                 None)), w1)))
  /\ (forall mac' stored stored' rest rest',
        same_ignoring_case mac mac' -> same_ignoring_case stored stored' ->
        mac_matches mac (JObj (("mac", JStr stored) :: rest))
        = mac_matches mac' (JObj (("mac", JStr stored') :: rest'))).
Proof.
  split; [|split].
  - intros Hfetch. unfold run in Hfetch. split.
    + intros pre d post -> Hpre Hd. apply Forall_apart_otherwise in Hpre.
      unfold run, getDevice. unfold bind at 1. rewrite Hfetch.
      unfold bind, lift. simpl. rewrite (find_first_identified mac pre post d Hpre Hd).
      now rewrite (proj2 (mac_matches_identified mac d Hd)).
    + intros Hnone. apply Forall_apart_otherwise in Hnone.
      unfold run, getDevice. unfold bind at 1. rewrite Hfetch.
      unfold bind, lift. simpl. now rewrite (find_none_identified mac collection Hnone).
  - intros Hfetch. unfold run in Hfetch. split.
    + intros pre d post -> Hpre Hd. apply Forall_apart_otherwise in Hpre.
      unfold run, getClient. unfold bind at 1. rewrite Hfetch.
      unfold bind, lift. simpl. rewrite (find_first_identified mac pre post d Hpre Hd).
      now rewrite (proj2 (mac_matches_identified mac d Hd)).
    + intros Hnone. apply Forall_apart_otherwise in Hnone.
      unfold run, getClient. unfold bind at 1. rewrite Hfetch.
      unfold bind, lift. simpl. now rewrite (find_none_identified mac collection Hnone).
  - intros mac' stored stored' rest rest' Hmac Hstored.
    unfold mac_matches. simpl.
    apply toLowerCase_same_ignoring_case in Hmac, Hstored.
    now rewrite Hmac, Hstored.
Qed.

Lemma lookup_by_mac_witness :
  fst (run (getDevice "aa:bb:cc:00:00:02") (serving (JArr two_devices)) (boot minimal_api))
    = Ok (JObj [("mac", JStr "AA:BB:CC:00:00:02"); ("name", JStr "ap")])
  /\ fst (run (getClient "00:11:22:33:44:55") (serving (JArr two_devices)) (boot minimal_api))
    = Throw (ThrowUniFi (new_UniFiError "Client with MAC 00:11:22:33:44:55 not found" None)).
Proof.
  split.
  - destruct (lookup_by_mac (serving (JArr two_devices)) (boot minimal_api)
                (snd (run getDevices (serving (JArr two_devices)) (boot minimal_api)))
                "aa:bb:cc:00:00:02" two_devices) as [Hdevice _].
    destruct (Hdevice eq_refl) as [Hfound _].
    rewrite (Hfound [JObj [("mac", JStr "aa:bb:cc:00:00:01"); ("name", JStr "switch")]]
               (JObj [("mac", JStr "AA:BB:CC:00:00:02"); ("name", JStr "ap")]) []).
    + reflexivity.
    + reflexivity.
    + constructor; [|constructor].
      exists "aa:bb:cc:00:00:01". split; [reflexivity|].
      split; [reflexivity|]. split; [reflexivity|].
      intros H. apply toLowerCase_same_ignoring_case in H. discriminate H.
    + exists "AA:BB:CC:00:00:02". split; [reflexivity|].
      apply toLowerCase_same_ignoring_case. reflexivity.
  - destruct (lookup_by_mac (serving (JArr two_devices)) (boot minimal_api)
                (snd (run getClients (serving (JArr two_devices)) (boot minimal_api)))
                "00:11:22:33:44:55" two_devices) as [_ [Hclient _]].
    destruct (Hclient eq_refl) as [_ Hmissing].
    rewrite Hmissing.
    + reflexivity.
    + constructor; [|constructor; [|constructor]].
      * exists "aa:bb:cc:00:00:01". split; [reflexivity|].
        split; [reflexivity|]. split; [reflexivity|].
        intros H. apply toLowerCase_same_ignoring_case in H. discriminate H.
      * exists "AA:BB:CC:00:00:02". split; [reflexivity|].
        split; [reflexivity|]. split; [reflexivity|].
        intros H. apply toLowerCase_same_ignoring_case in H. discriminate H.
Defined.

(** * Statistics of one device or client *)



(** * Error codes *)

(** Three failures of three kinds, all without a code: they differ in
    their message only. *)
Lemma errors_without_code :
  constructor (mkConfig None None None None None None None None)
    = Throw (ThrowUniFi {| message := "Host, username, and password are required";
                           name := "UniFiError"; code := None |})
  /\ fst (run (request "/api/self" GET JUndefined)
              (rejecting (JStr "api.err.NoSiteContext")) (boot signed_in))
     = Throw (ThrowUniFi {| message := "API Error: api.err.NoSiteContext";
                            name := "UniFiError"; code := None |})
  /\ fst (run (getDevice "ff:ff:ff:ff:ff:ff") (serving (JArr [])) (boot signed_in))
     = Throw (ThrowUniFi {| message := "Device with MAC ff:ff:ff:ff:ff:ff not found";
                            name := "UniFiError"; code := None |}).
Proof. repeat split; reflexivity. Qed.

(** What a call of the axios instance throws. *)
Lemma client_throws (c : Controller) (w w1 : World) (config : AxiosRequest) (t : Thrown) :
  run (client config) c w = (Throw t, w1) ->
  t = ThrowUniFi (new_UniFiError "Authentication failed" (Some "INVALID_CREDENTIALS"))
  \/ t = ThrowUniFi (new_UniFiError
                       ("Cannot connect to UniFi Controller at " ++ baseURL (api w))
                       (Some "CONNECTION_ERROR"))
  \/ exists error, t = ThrowAxios error.
Proof.
  unfold run, client, request_interceptor, transport, response_fulfilled, response_rejected.
  run_js.
  destruct (respond c _ _) as [response|error].
  - destruct (set_cookie response); discriminate.
  - destruct (status_is_401 error); simpl.
    + intros H; injection H as <- _. now left.
    + destruct (code_is error "ECONNREFUSED" || code_is error "ENOTFOUND"); simpl;
        intros H; injection H as <- _.
      * right. now left.
      * right. right. now exists error.
Qed.

Lemma login_throws (c : Controller) (w w1 : World) (t : Thrown) :
  run login c w = (Throw t, w1) ->
  t = ThrowUniFi (new_UniFiError "Authentication failed" (Some "INVALID_CREDENTIALS"))
  \/ t = ThrowUniFi (new_UniFiError
                       ("Cannot connect to UniFi Controller at " ++ baseURL (api w))
                       (Some "CONNECTION_ERROR"))
  \/ (exists error, t = ThrowAxios error)
  \/ t = ThrowUniFi (new_UniFiError "Authentication failed: Invalid response" None).
Proof.
  unfold run, login, try_catch. unfold bind at 1. unfold this at 1. unfold bind at 1.
  destruct (client (login_request (api w)) c w) as [[response|t0|] w0] eqn:Hcall.
  - unfold bind at 1. unfold lift at 1. rewrite envelope_ok_rc.
    destruct (strict_eq_str _ "ok") eqn:E.
    + apply strict_eq_str_true in E.
      destruct (data response) as [| | | | | |props]; simpl in E; try discriminate.
      destruct (own_property "meta" props) as [| | | | | |mprops] eqn:Hm; simpl in E;
        try discriminate.
      run_js. rewrite Hm. simpl.
      destruct (truthy (own_property "csrf_token" mprops)); discriminate.
    + run_js. intros H; injection H as <- _. now repeat right.
  - run_js. intros H; injection H as <- _.
    destruct (client_throws _ _ _ _ _ Hcall) as [H | [H | H]]; auto.
  - discriminate.
Qed.

(** Induction on a value, with the elements of an array at hand. *)
Lemma JSValue_array_ind (P : JSValue -> Prop) :
  P JUndefined -> P JNull -> (forall b, P (JBool b)) -> (forall n, P (JNum n)) ->
  (forall s, P (JStr s)) -> (forall xs, Forall P xs -> P (JArr xs)) ->
  (forall props, P (JObj props)) ->
  forall v, P v.
Proof.
  intros Hundefined Hnull Hbool Hnum Hstr Harr Hobj.
  fix IH 1.
  intros [| |b|n|s|xs|props];
    [exact Hundefined | exact Hnull | apply Hbool | apply Hnum | apply Hstr | | apply Hobj].
  apply Harr. induction xs as [|x xs IHxs]; constructor; [apply IH | exact IHxs].
Qed.

(** Converting a value to text returns the text or throws a TypeError. *)
Lemma ToString_settles (v : JSValue) :
  (exists text, ToString v = Ok text)
  \/ (exists msg, ToString v = Throw (ThrowTypeError msg)).
Proof.
  induction v as [| |b|n|s|xs IHxs|props] using JSValue_array_ind;
    simpl; try (left; eauto; fail).
  - destruct b; left; eauto.
  - induction IHxs as [|x rest Hx _ IHrest]; [left; eauto|].
    assert (Hx' : (exists text, match x with
                                | JUndefined | JNull => Ok ""
                                | _ => ToString x
                                end = Ok text)
                  \/ (exists msg, match x with
                                  | JUndefined | JNull => Ok ""
                                  | _ => ToString x
                                  end = Throw (ThrowTypeError msg))).
    { destruct x; try (left; eauto; fail); exact Hx. }
    destruct Hx' as [[text Hx'] | [msg Hx']]; rewrite Hx'.
    + destruct rest as [|y rest']; [left; eauto|].
      destruct IHrest as [[text' Hr] | [msg Hr]]; rewrite Hr; [left | right]; eauto.
    + right; eauto.
  - destruct (has_own_property "toString" props); [right | left]; eauto.
Qed.

(** The scan of a lookup returns or throws a TypeError. *)
Lemma call_find_throws (mac : string) (collection : JSValue) (t : Thrown) :
  call_find collection (mac_matches mac) = Throw t -> exists msg, t = ThrowTypeError msg.
Proof.
  destruct collection; simpl; try (intros H; injection H as <-; eauto; fail).
  induction xs as [|x xs IH]; simpl; [discriminate|].
  destruct (mac_matches mac x) as [[]|t'|] eqn:E; try discriminate.
  - exact IH.
  - intros H. injection H as <-.
    unfold mac_matches in E.
    destruct x; simpl in E;
      try (injection E as <-; eauto; fail); try discriminate.
    destruct (own_property "mac" props); try discriminate;
      injection E as <-; eauto.
Qed.

Lemma request_throws (c : Controller) (w w1 : World)
    (endpoint : string) (method : Method) (body : JSValue) (t : Thrown) :
  run (request endpoint method body) c w = (Throw t, w1) ->
  discriminable (baseURL (api w))
    (fun text => text = "Authentication failed: Invalid response"
                 \/ exists m, text = "API Error: " ++ m) t.
Proof.
  unfold run, request. unfold bind at 1.
  destruct (ensureAuthenticated c w) as [re we] eqn:He.
  destruct (ensureAuthenticated_frame _ _ _ _ He) as (_ & _ & _ & Hb & _).
  destruct re as [[]|t0|].
  - unfold bind at 1.
    destruct (client (request_config endpoint method body) c we) as [[response|t0|] w0]
      eqn:Hcall.
    + unfold bind at 1. unfold lift at 1. rewrite envelope_ok_rc.
      destruct (strict_eq_str _ "ok") eqn:E.
      * apply strict_eq_str_true in E.
        destruct (data response) as [| | | | | |props]; simpl in E; discriminate.
      * unfold bind, lift, throw.
        destruct (ToString_settles
                    (js_or (get_prop_opt (get_prop_opt (data response) "meta") "msg")
                           (JStr "Unknown error"))) as [[text Ht] | [msg Ht]];
          rewrite Ht; intros H; injection H as <- _.
        -- right. right. eexists. split; [reflexivity|]. split; [reflexivity|].
           right. right. split; [reflexivity|]. right. eexists. reflexivity.
        -- right. left. eauto.
    + intros H; injection H as <- _.
      destruct (client_throws _ _ _ _ _ Hcall) as [-> | [-> | [error ->]]].
      * right. right. eexists. split; [reflexivity|]. split; [reflexivity|]. left. now split.
      * right. right. eexists. split; [reflexivity|]. split; [reflexivity|].
        right. left. rewrite Hb. now split.
      * left. now exists error.
    + discriminate.
  - intros H; injection H as <- _.
    revert He. unfold ensureAuthenticated. unfold bind at 1. unfold this at 1.
    destruct (isAuthenticated (api w)); [discriminate|]. simpl. unfold bind.
    destruct (login c w) as [[b|tl|] wl] eqn:Hl; try discriminate.
    intros H; injection H as <- _.
    destruct (login_throws _ _ _ _ Hl) as [-> | [-> | [[error ->] | ->]]].
    + right. right. eexists. split; [reflexivity|]. split; [reflexivity|]. left. now split.
    + right. right. eexists. split; [reflexivity|]. split; [reflexivity|].
      right. left. now split.
    + left. now exists error.
    + right. right. eexists. split; [reflexivity|]. split; [reflexivity|].
      right. right. split; [reflexivity|]. now left.
  - discriminate.
Qed.

(** A lookup throws what the pipeline throws, or the TypeError of the
    scan, or its not-found error. *)
Lemma lookup_throws (c : Controller) (w w1 : World) (fetch : M JSValue)
    (label mac : string) (plain : string -> Prop) (t : Thrown) :
  (forall t0 w0, run fetch c w = (Throw t0, w0) -> discriminable (baseURL (api w)) plain t0) ->
  plain (label ++ mac ++ " not found") ->
  run (found <- fetch ;;
       entry <- lift (call_find found (mac_matches mac)) ;;
       if negb (truthy entry)
       then throw (ThrowUniFi (new_UniFiError (label ++ mac ++ " not found") None))
       else ret entry) c w = (Throw t, w1) ->
  discriminable (baseURL (api w)) plain t.
Proof.
  intros Hfetch Hplain. unfold run in *. unfold bind at 1.
  destruct (fetch c w) as [[found|t0|] w0] eqn:Hf.
  - unfold bind, lift.
    destruct (call_find found (mac_matches mac)) as [entry|t0|] eqn:Hfind.
    + destruct (truthy entry); simpl; unfold throw, ret; [discriminate|].
      intros H; injection H as <- _.
      right. right. eexists. split; [reflexivity|]. split; [reflexivity|].
      right. right. split; [reflexivity | exact Hplain].
    + intros H; injection H as <- _.
      right. left. exact (call_find_throws mac found t0 Hfind).
    + discriminate.
  - intros H; injection H as <- <-. exact (Hfetch t0 w0 eq_refl).
  - discriminate.
Qed.

(** C9 (amended).  Every value thrown by the constructor, by [login], by
    the request pipeline and by the lookups [getDevice] and [getClient] is
    an error of the transport thrown again as it came, a TypeError of the
    language, or a [UniFiError] with the name [UniFiError].  Of these only
    the two errors of the response interceptor carry a code,
    [INVALID_CREDENTIALS] and [CONNECTION_ERROR]; the configuration error,
    the invalid login response, the API error and the two not-found errors
    carry none and differ in their message only. *)
Theorem thrown_errors_and_codes :
  (forall config t,
     constructor config = Throw t ->
     t = ThrowUniFi {| message := "Host, username, and password are required";
                       name := "UniFiError"; code := None |})
  /\ (forall c w w1 t,
        run login c w = (Throw t, w1) ->
        discriminable (baseURL (api w))
          (fun text => text = "Authentication failed: Invalid response") t)
  /\ (forall c w w1 endpoint method body t,
        run (request endpoint method body) c w = (Throw t, w1) ->
        discriminable (baseURL (api w))
          (fun text => text = "Authentication failed: Invalid response"
                       \/ exists m, text = "API Error: " ++ m) t)
  /\ (forall c w w1 mac t,
        run (getDevice mac) c w = (Throw t, w1) ->
        discriminable (baseURL (api w))
          (fun text => text = "Authentication failed: Invalid response"
                       \/ (exists m, text = "API Error: " ++ m)
                       \/ text = "Device with MAC " ++ mac ++ " not found") t)
  /\ (forall c w w1 mac t,
        run (getClient mac) c w = (Throw t, w1) ->
        discriminable (baseURL (api w))
          (fun text => text = "Authentication failed: Invalid response"
                       \/ (exists m, text = "API Error: " ++ m)
                       \/ text = "Client with MAC " ++ mac ++ " not found") t).
Proof.
  assert (Hwiden : forall base (p q : string -> Prop) t,
             (forall text, p text -> q text) ->
             discriminable base p t -> discriminable base q t).
  { intros base p q t Hpq [H | [H | (e & He & Hn & [H | [H | [Hc Hp]]])]].
    - now left.
    - right. now left.
    - right. right. exists e. split; [exact He|]. split; [exact Hn|]. now left.
    - right. right. exists e. split; [exact He|]. split; [exact Hn|]. right. now left.
    - right. right. exists e. split; [exact He|]. split; [exact Hn|].
      right. right. split; [exact Hc | now apply Hpq]. }
  split; [|split; [|split; [|split]]].
  - intros config t. unfold constructor.
    destruct (falsy_field (cfg_host config) || falsy_field (cfg_username config)
              || falsy_field (cfg_password config)); [|discriminate].
    intros H. injection H as <-. reflexivity.
  - intros c w w1 t Hl.
    destruct (login_throws _ _ _ _ Hl) as [-> | [-> | [[error ->] | ->]]].
    + right. right. eexists. split; [reflexivity|]. split; [reflexivity|]. left. now split.
    + right. right. eexists. split; [reflexivity|]. split; [reflexivity|].
      right. left. now split.
    + left. now exists error.
    + right. right. eexists. split; [reflexivity|]. split; [reflexivity|].
      right. right. now split.
  - intros c w w1 endpoint method body t. apply request_throws.
  - intros c w w1 mac t. unfold getDevice.
    apply (lookup_throws c w w1 getDevices "Device with MAC " mac).
    + intros t0 w0 H. unfold getDevices, run in H. unfold bind at 1 in H.
      unfold this at 1 in H.
      eapply Hwiden; [|exact (request_throws _ _ _ _ _ _ _ H)].
      intros text [Ht | Ht]; [now left | right; now left].
    + right. now right.
  - intros c w w1 mac t. unfold getClient.
    apply (lookup_throws c w w1 getClients "Client with MAC " mac).
    + intros t0 w0 H. unfold getClients, run in H. unfold bind at 1 in H.
      unfold this at 1 in H.
      eapply Hwiden; [|exact (request_throws _ _ _ _ _ _ _ H)].
      intros text [Ht | Ht]; [now left | right; now left].
    + right. now right.
Qed.

Lemma thrown_errors_and_codes_witness :
  discriminable "https://test.local:8443"
    (fun text => text = "Authentication failed: Invalid response"
                 \/ (exists m, text = "API Error: " ++ m)
                 \/ text = "Device with MAC ff:ff:ff:ff:ff:ff not found")
    (ThrowUniFi (new_UniFiError "Device with MAC ff:ff:ff:ff:ff:ff not found" None)).
Proof.
  destruct thrown_errors_and_codes as (_ & _ & _ & Hdevice & _).
  apply (Hdevice (serving (JArr [])) (boot signed_in)
           (snd (run (getDevice "ff:ff:ff:ff:ff:ff") (serving (JArr [])) (boot signed_in)))
           "ff:ff:ff:ff:ff:ff").
  reflexivity.
Defined.

(** * The axios instance, request by request *)

Lemma request_interceptor_outgoing (c : Controller) (w : World) (config : AxiosRequest) :
  run (request_interceptor config) c w = (Ok (outgoing (api w) config), w).
Proof. reflexivity. Qed.

(** A fulfilled call: the request has left, the cookies of the response
    are stored, the response is returned. *)
Lemma client_fulfilled (c : Controller) (w : World) (config : AxiosRequest)
    (response : AxiosResponse) :
  respond c (List.length (sent w)) (outgoing (api w) config) = Fulfilled response ->
  run (client config) c w = (Ok response, answered w (outgoing (api w) config) response).
Proof.
  intros H. unfold run, client, request_interceptor, transport. run_js.
  fold (outgoing (api w) config). rewrite H.
  unfold response_fulfilled, answered, received.
  destruct (set_cookie response); reflexivity.
Qed.

(** A failed call: the request has left, the failure side of the response
    interceptor decides. *)
Lemma client_failed (c : Controller) (w : World) (config : AxiosRequest)
    (error : AxiosError) :
  respond c (List.length (sent w)) (outgoing (api w) config) = Failed error ->
  run (client config) c w
  = run (response_rejected error) c
        {| api := api w; emitted := emitted w;
           sent := (sent w ++ [outgoing (api w) config])%list;
           opened := opened w; closed := closed w |}.
Proof.
  intros H. unfold run, client, request_interceptor, transport. run_js.
  fold (outgoing (api w) config). now rewrite H.
Qed.

(** Every call puts exactly one request on the wire, whatever comes back. *)
Lemma client_sends_one (c : Controller) (w w1 : World) (config : AxiosRequest)
    (r : Result AxiosResponse) :
  run (client config) c w = (r, w1) ->
  sent w1 = (sent w ++ [outgoing (api w) config])%list
  /\ csrfToken (api w1) = csrfToken (api w)
  /\ (forall t, r = Throw t -> cookies (api w1) = cookies (api w)).
Proof.
  unfold run, client, request_interceptor, transport, response_fulfilled, response_rejected.
  run_js. fold (outgoing (api w) config).
  destruct (respond c _ _) as [response|error].
  - destruct (set_cookie response); simpl; intros H; injection H as <- <-; simpl;
      repeat split; discriminate.
  - destruct (status_is_401 error); simpl.
    + intros H; injection H as <- <-. repeat split.
    + destruct (code_is error "ECONNREFUSED" || code_is error "ENOTFOUND"); simpl;
        intros H; injection H as <- <-; repeat split.
Qed.

(** * Login, case by case *)

(** What [login] leaves behind, on both of its ways out. *)
Lemma login_effects (c : Controller) (w w1 : World) (r : Result bool) :
  run login c w = (r, w1) ->
  sent w1 = (sent w ++ [outgoing (api w) (login_request (api w))])%list
  /\ ((r = Ok true /\ isAuthenticated (api w1) = true
       /\ emitted w1 = (emitted w ++ [mkNotification "authenticated" NoPayload])%list)
      \/ ((exists t, r = Throw t) /\ isAuthenticated (api w1) = false
          /\ csrfToken (api w1) = csrfToken (api w)
          /\ emitted w1 = emitted w)).
Proof.
  unfold run, login, try_catch. unfold bind at 1. unfold this at 1. unfold bind at 1.
  destruct (client (login_request (api w)) c w) as [[response|t0|] w0] eqn:Hcall.
  - destruct (client_frame _ _ _ _ _ Hcall) as (He & _).
    destruct (client_sends_one _ _ _ _ _ Hcall) as (Hsent & Hk & _).
    unfold bind at 1. unfold lift at 1. rewrite envelope_ok_rc.
    destruct (strict_eq_str _ "ok") eqn:E.
    + apply strict_eq_str_true in E.
      destruct (data response) as [| | | | | |props]; simpl in E; try discriminate.
      destruct (own_property "meta" props) as [| | | | | |mprops] eqn:Hm; simpl in E;
        try discriminate.
      run_js. rewrite Hm. simpl.
      destruct (truthy (own_property "csrf_token" mprops)); simpl;
        intros H; injection H as <- <-; simpl; rewrite Hsent, He;
        (split; [reflexivity|]); left; now repeat split.
    + run_js. intros H; injection H as <- <-. simpl.
      split; [exact Hsent|]. right. split; [eauto|]. now repeat split.
  - destruct (client_frame _ _ _ _ _ Hcall) as (He & _).
    destruct (client_sends_one _ _ _ _ _ Hcall) as (Hsent & Hk & _).
    run_js. intros H; injection H as <- <-. simpl.
    split; [exact Hsent|]. right. split; [eauto|]. now repeat split.
  - exfalso. apply (client_settles c w (login_request (api w))).
    unfold run. now rewrite Hcall.
Qed.

(** X1.  When the controller answers the login request with result code
    ['ok'], [login] returns [true], sets [isAuthenticated], stores the CSRF
    token of the answer when it has one and keeps the old one otherwise,
    stores the cookies of the answer, emits [authenticated] once, and has
    sent the one login request with the user name, the password and
    [remember: false]. *)
Theorem login_accepts (c : Controller) (w : World) (response : AxiosResponse) :
  respond c (List.length (sent w)) (outgoing (api w) (login_request (api w)))
    = Fulfilled response ->
  rc_of (data response) = JStr "ok" ->
  exists w1,
    run login c w = (Ok true, w1)
    /\ isAuthenticated (api w1) = true
    /\ csrfToken (api w1)
       = (let token := get_prop_opt (get_prop_opt (data response) "meta") "csrf_token" in
          if truthy token then token else csrfToken (api w))
    /\ cookies (api w1) = cookies (received response (api w))
    /\ eventSocket (api w1) = eventSocket (api w)
    /\ emitted w1 = (emitted w ++ [mkNotification "authenticated" NoPayload])%list
    /\ sent w1 = (sent w ++ [outgoing (api w) (login_request (api w))])%list
    /\ req_url (login_request (api w)) = "/api/login"
    /\ req_data (login_request (api w))
       = JObj [("username", JStr (username (options (api w))));
               ("password", JStr (password (options (api w))));
               ("remember", JBool false)].
Proof.
  intros Hanswer Hrc.
  unfold run, login, try_catch. unfold bind at 1. unfold this at 1. unfold bind at 1.
  rewrite_run (client_fulfilled c w (login_request (api w)) response Hanswer).
  unfold bind at 1. unfold lift at 1. rewrite envelope_ok_rc.
  unfold rc_of in Hrc. rewrite Hrc. simpl strict_eq_str. cbv iota.
  destruct (data response) as [| | | | | |props]; simpl in Hrc; try discriminate.
  destruct (own_property "meta" props) as [| | | | | |mprops] eqn:Hm; simpl in Hrc;
    try discriminate.
  run_js. rewrite Hm. simpl.
  assert (Hs : eventSocket (received response (api w)) = eventSocket (api w)).
  { unfold received. destruct (set_cookie response); reflexivity. }
  assert (Hk : csrfToken (received response (api w)) = csrfToken (api w)).
  { unfold received. destruct (set_cookie response); reflexivity. }
  destruct (truthy (own_property "csrf_token" mprops)); simpl;
    eexists; (split; [reflexivity|]); simpl; rewrite ?Hs, ?Hk; repeat split.
Qed.

Lemma login_accepts_witness :
  exists w1,
    run login obliging (boot minimal_api) = (Ok true, w1)
    /\ isAuthenticated (api w1) = true
    /\ emitted w1 = [mkNotification "authenticated" NoPayload].
Proof.
  destruct (login_accepts obliging (boot minimal_api)
              (mkResponse 200 None (envelope_rc "ok")) eq_refl eq_refl)
    as [w1 (Hrun & Hauth & _ & _ & _ & Hemit & _)].
  exists w1. split; [exact Hrun|]. split; [exact Hauth | exact Hemit].
Defined.

(** X2.  A login that does not return throws, and leaves the session
    unauthenticated with its CSRF token as it was; nothing is emitted and
    the one login request is not repeated.  An answer that the transport
    fulfils, a 2xx answer, whose result code is not ['ok'] is such a
    failure: the error is [Authentication failed: Invalid response],
    without a code. *)
Theorem login_rejects (c : Controller) (w : World) :
  (forall t w1,
     run login c w = (Throw t, w1) ->
     isAuthenticated (api w1) = false
     /\ csrfToken (api w1) = csrfToken (api w)
     /\ emitted w1 = emitted w
     /\ sent w1 = (sent w ++ [outgoing (api w) (login_request (api w))])%list)
  /\ (forall response,
        respond c (List.length (sent w)) (outgoing (api w) (login_request (api w)))
          = Fulfilled response ->
        rc_of (data response) <> JStr "ok" ->
        exists w1,
          run login c w
          = (Throw (ThrowUniFi (new_UniFiError "Authentication failed: Invalid response" None)),
             w1)
          /\ isAuthenticated (api w1) = false).
Proof.
  split.
  - intros t w1 Hl.
    destruct (login_effects _ _ _ _ Hl) as [Hsent [(Hr & _) | (_ & Ha & Hk & He)]].
    + discriminate Hr.
    + now repeat split.
  - intros response Hanswer Hrc.
    unfold run, login, try_catch. unfold bind at 1. unfold this at 1. unfold bind at 1.
    rewrite_run (client_fulfilled c w (login_request (api w)) response Hanswer).
    unfold bind at 1. unfold lift at 1. rewrite envelope_ok_rc.
    unfold rc_of in Hrc. rewrite (strict_eq_str_false _ _ Hrc).
    run_js. eexists. split; reflexivity.
Qed.

Lemma login_rejects_witness :
  fst (run login (rejecting (JStr "api.err.Invalid")) (boot minimal_api))
    = Throw (ThrowUniFi (new_UniFiError "Authentication failed: Invalid response" None))
  /\ emitted (snd (run login (failing refused) (boot signed_in))) = []
  /\ isAuthenticated (api (snd (run login (failing refused) (boot signed_in)))) = false.
Proof.
  destruct (login_rejects (rejecting (JStr "api.err.Invalid")) (boot minimal_api))
    as [_ Hinvalid].
  destruct (login_rejects (failing refused) (boot signed_in)) as [Hthrow _].
  split.
  - destruct (Hinvalid (mkResponse 200 None
                          (JObj [("meta", JObj [("rc", JStr "error");
                                                ("msg", JStr "api.err.Invalid")]);
                                 ("data", JArr [])])) eq_refl) as [w1 [Hrun _]].
    + discriminate.
    + rewrite Hrun. reflexivity.
  - destruct (Hthrow (ThrowUniFi (new_UniFiError
                        "Cannot connect to UniFi Controller at https://test.local:8443"
                        (Some "CONNECTION_ERROR")))
                (snd (run login (failing refused) (boot signed_in))) eq_refl)
      as (Hauth & _ & Hemit & _).
    split; [exact Hemit | exact Hauth].
Defined.

(** * What the pipeline sends *)

(** After the call of the axios instance the pipeline touches nothing. *)
Lemma request_world (c : Controller) (w w0 w1 : World)
    (endpoint : string) (method : Method) (body : JSValue)
    (rc : Result AxiosResponse) (r : Result JSValue) :
  run ensureAuthenticated c w = (Ok tt, w0) ->
  run (client (request_config endpoint method body)) c w0 = (rc, w1) ->
  snd (run (request endpoint method body) c w) = w1.
Proof.
  unfold run. intros He Hc. unfold request. unfold bind at 1. rewrite He.
  unfold bind at 1. rewrite Hc.
  destruct rc as [response|t|]; try reflexivity.
  unfold bind at 1. unfold lift at 1. rewrite envelope_ok_rc.
  destruct (strict_eq_str _ "ok") eqn:E.
  - apply strict_eq_str_true in E.
    destruct (data response) as [| | | | | |props]; simpl in E; try discriminate.
    reflexivity.
  - unfold bind, lift, throw. now destruct (ToString _).
Qed.

(** X3.  On an authenticated session [request] sends exactly one request
    and never a second one, whatever the answer.  The request has the
    endpoint as its path and the method in lower case; it carries the body
    only when the body is truthy and the method is POST, PUT or PATCH; it
    carries the [Cookie] header exactly when cookies are stored and the
    [X-Csrf-Token] header exactly when a token is stored.  Nothing is
    emitted and the event socket is left alone. *)
Theorem request_sends_once (c : Controller) (w w1 : World)
    (endpoint : string) (method : Method) (body : JSValue) (r : Result JSValue) :
  isAuthenticated (api w) = true ->
  run (request endpoint method body) c w = (r, w1) ->
  exists req,
    sent w1 = (sent w ++ [req])%list
    /\ req_url req = endpoint
    /\ req_method req = toLowerCase (method_name method)
    /\ req_data req = (if truthy body && carries_body method then body else JUndefined)
    /\ req_Cookie req
       = (if String.eqb (cookies (api w)) "" then None else Some (cookies (api w)))
    /\ req_X_Csrf_Token req
       = (if truthy (csrfToken (api w)) then Some (csrfToken (api w)) else None)
    /\ emitted w1 = emitted w
    /\ opened w1 = opened w /\ closed w1 = closed w
    /\ eventSocket (api w1) = eventSocket (api w).
Proof.
  intros Ha Hrun.
  destruct (client (request_config endpoint method body) c w) as [rc wc] eqn:Hcall.
  pose proof (request_world c w w wc endpoint method body rc r
                (ensureAuthenticated_noop c w Ha) Hcall) as Hw.
  rewrite Hrun in Hw. simpl in Hw. subst wc.
  destruct (client_frame _ _ _ _ _ Hcall) as (He & Ho & Hc & Hs & _).
  destruct (client_sends_one _ _ _ _ _ Hcall) as (Hsent & _).
  exists (outgoing (api w) (request_config endpoint method body)).
  split; [exact Hsent|]. simpl.
  destruct (String.eqb (cookies (api w)) ""); simpl;
    destruct (truthy (csrfToken (api w))); simpl; now repeat split.
Qed.

Lemma request_sends_once_witness :
  exists req,
    sent (snd (run (request "/api/self" DELETE (JStr "ignored")) obliging (boot signed_in)))
      = [req]
    /\ req_method req = "delete" /\ req_data req = JUndefined /\ req_Cookie req = None.
Proof.
  destruct (request_sends_once obliging (boot signed_in)
              (snd (run (request "/api/self" DELETE (JStr "ignored")) obliging (boot signed_in)))
              "/api/self" DELETE (JStr "ignored")
              (fst (run (request "/api/self" DELETE (JStr "ignored")) obliging (boot signed_in)))
              eq_refl eq_refl)
    as [req (Hsent & _ & Hmethod & Hdata & Hcookie & _)].
  exists req. split; [exact Hsent|]. split; [exact Hmethod|]. split; [exact Hdata|exact Hcookie].
Defined.

(** X4.  On an unauthenticated session [request] logs in first.  When the
    login throws, [request] throws the same error and the endpoint is never
    contacted: the login request is the only one sent.  When the login
    returns, exactly one more request follows, to the endpoint, with the
    cookies and the token that the login has stored. *)
Theorem request_logs_in_first (c : Controller) (w w1 : World)
    (endpoint : string) (method : Method) (body : JSValue) (r : Result JSValue) :
  isAuthenticated (api w) = false ->
  run (request endpoint method body) c w = (r, w1) ->
  (exists t,
     run login c w = (Throw t, w1) /\ r = Throw t
     /\ sent w1 = (sent w ++ [outgoing (api w) (login_request (api w))])%list
     /\ isAuthenticated (api w1) = false)
  \/ (exists w0,
        run login c w = (Ok true, w0)
        /\ sent w1 = (sent w ++ [outgoing (api w) (login_request (api w));
                                 outgoing (api w0) (request_config endpoint method body)])%list
        /\ emitted w1 = (emitted w ++ [mkNotification "authenticated" NoPayload])%list).
Proof.
  intros Ha Hrun.
  destruct (login c w) as [rl wl] eqn:Hl.
  assert (He : run ensureAuthenticated c w
               = (match rl with Ok _ => Ok tt | Throw t => Throw t | Pending => Pending end, wl)).
  { unfold run, ensureAuthenticated. unfold bind at 1. unfold this at 1.
    rewrite Ha. simpl. unfold bind. rewrite Hl. now destruct rl. }
  destruct (login_effects _ _ _ _ Hl) as [Hs1 [(-> & Hauth & He1) | ([t ->] & Hauth & _)]].
  - right. exists wl. split; [exact Hl|].
    destruct (client (request_config endpoint method body) c wl) as [rc wc] eqn:Hcall.
    pose proof (request_world c w wl wc endpoint method body rc r He Hcall) as Hw.
    rewrite Hrun in Hw. simpl in Hw. subst wc.
    destruct (client_frame _ _ _ _ _ Hcall) as (Hem & _).
    destruct (client_sends_one _ _ _ _ _ Hcall) as (Hsent & _).
    rewrite Hsent, Hs1, Hem, He1, <- app_assoc. now split.
  - left. exists t.
    assert (Hreq : run (request endpoint method body) c w = (Throw t, wl)).
    { unfold run, request. unfold bind at 1. unfold run in He. now rewrite He. }
    rewrite Hrun in Hreq. injection Hreq as -> ->.
    split; [exact Hl|]. now repeat split.
Qed.

Lemma request_logs_in_first_witness :
  List.map req_url
    (sent (snd (run (request "/api/self" GET JUndefined) (failing refused) (boot minimal_api))))
  = ["/api/login"].
Proof.
  destruct (request_logs_in_first (failing refused) (boot minimal_api)
              (snd (run (request "/api/self" GET JUndefined) (failing refused) (boot minimal_api)))
              "/api/self" GET JUndefined
              (fst (run (request "/api/self" GET JUndefined) (failing refused) (boot minimal_api)))
              eq_refl eq_refl)
    as [[t (_ & _ & Hsent & _)] | [w0 (Hlogin & _)]].
  - rewrite Hsent. reflexivity.
  - discriminate Hlogin.
Defined.

(** * Cookies *)

Lemma before_semicolon_prefix (s : string) :
  exists rest, s = before_semicolon s ++ rest.
Proof.
  induction s as [|a s [rest IH]]; simpl.
  - now exists "".
  - destruct (Ascii.eqb a ";") eqn:E.
    + now exists (String a s).
    + exists rest. simpl. now rewrite <- IH.
Qed.

Lemma before_semicolon_clean (s : string) (a : ascii) :
  List.In a (list_ascii_of_string (before_semicolon s)) -> a <> ";"%char.
Proof.
  induction s as [|b s IH]; simpl.
  - intros [].
  - destruct (Ascii.eqb b ";") eqn:E; simpl.
    + intros [].
    + intros [<- | H]; [|now apply IH].
      now apply Ascii.eqb_neq.
Qed.

(** X5.  The cookies of a response replace the stored ones: the stored
    string is the cookies of that response alone, each cut before its first
    semicolon and joined with ["; "], so that no attribute of a cookie is
    kept; a response without cookies leaves the stored string as it was.
    The next request presents the stored string as its [Cookie] header, and
    presents no such header when the string is empty. *)
Theorem cookies_replaced_and_presented (c : Controller) (w w1 : World)
    (config : AxiosRequest) (response : AxiosResponse) :
  run (client config) c w = (Ok response, w1) ->
  cookies (api w1)
  = match set_cookie response with
    | Some cs => String.concat "; " (List.map before_semicolon cs)
    | None => cookies (api w)
    end
  /\ (forall cs cookie, set_cookie response = Some cs -> List.In cookie cs ->
        (exists rest, cookie = before_semicolon cookie ++ rest)
        /\ forall a, List.In a (list_ascii_of_string (before_semicolon cookie)) ->
                     a <> ";"%char)
  /\ (forall next,
        exists req,
          run (request_interceptor next) c w1 = (Ok req, w1)
          /\ req_Cookie req
             = (if String.eqb (cookies (api w1)) "" then req_Cookie next
                else Some (cookies (api w1)))).
Proof.
  intros Hcall. split; [|split].
  - revert Hcall.
    unfold run, client, request_interceptor, transport, response_fulfilled, response_rejected.
    run_js.
    destruct (respond c _ _) as [response'|error].
    + destruct (set_cookie response') eqn:Hc; simpl;
        intros H; injection H as <- <-; simpl; now rewrite Hc.
    + destruct (status_is_401 error); [discriminate|].
      destruct (code_is error "ECONNREFUSED" || code_is error "ENOTFOUND"); discriminate.
  - intros cs cookie _ _. split.
    + apply before_semicolon_prefix.
    + apply before_semicolon_clean.
  - intros next. exists (outgoing (api w1) next). split; [reflexivity|].
    simpl. now destruct (String.eqb (cookies (api w1)) "").
Qed.

Lemma cookies_replaced_and_presented_witness :
  cookies (api (snd (run (client logout_request) cookie_setting (boot signed_in))))
  = "unifises=abc123; csrf_token=xyz".
Proof.
  destruct (cookies_replaced_and_presented cookie_setting (boot signed_in)
              (snd (run (client logout_request) cookie_setting (boot signed_in)))
              logout_request
              (mkResponse 200
                 (Some ["unifises=abc123; Path=/; Secure; HttpOnly"; "csrf_token=xyz; Path=/"])
                 (envelope_rc "ok")) eq_refl) as [Hstored _].
  rewrite Hstored. reflexivity.
Defined.

(** * Domain operations on an authenticated session *)

Lemma request_answered (c : Controller) (w : World)
    (endpoint : string) (method : Method) (body : JSValue) (response : AxiosResponse) :
  isAuthenticated (api w) = true ->
  respond c (List.length (sent w)) (outgoing (api w) (request_config endpoint method body))
    = Fulfilled response ->
  run (request endpoint method body) c w
  = (if strict_eq_str (rc_of (data response)) "ok"
     then Ok (js_or (get_prop_opt (data response) "data") (data response))
     else api_error (data response),
     answered w (outgoing (api w) (request_config endpoint method body)) response).
Proof.
  intros Ha Hanswer.
  assert (Hcall : run (ensureAuthenticated ;; client (request_config endpoint method body)) c w
                  = (Ok response,
                     answered w (outgoing (api w) (request_config endpoint method body)) response)).
  { unfold run. unfold bind at 1. rewrite_run (ensureAuthenticated_noop c w Ha).
    exact (client_fulfilled c w _ response Hanswer). }
  exact (request_after_transport _ _ _ _ _ _ _ Hcall).
Qed.

(** An operation that is [request] on a path of the session, possibly
    followed by [return true]. *)
Ltac settle_performs :=
  intros c w response Ha Hanswer;
  unfold run, restartDevice, adoptDevice, forgetDevice, blockClient, unblockClient,
    reconnectClient, archiveAlert, getNetworks, createNetwork, updateNetwork,
    deleteNetwork, getSystemStats, getAlerts, getDevices, getClients;
  unfold bind at 1; unfold this at 1;
  try (unfold bind at 1);
  rewrite_run (request_answered c w _ _ _ response Ha Hanswer);
  destruct (strict_eq_str (rc_of (data response)) "ok");
    [reflexivity | unfold api_error; destruct (ToString _); reflexivity].

(** X6.  The seven commands post their command object to the manager of
    the configured site: [restart], [adopt] and [forget] with the [mac] to
    [/cmd/devmgr], [block-sta], [unblock-sta] and [kick-sta] with the [mac]
    to [/cmd/stamgr], [archive-alarm] with the [_id] to [/cmd/evtmgr].  Of
    the answers the transport fulfils, every one with result code ['ok']
    makes them return [true], whatever its data section, and every other
    one makes them throw [api_error]: the API error with the text of the
    message, or the TypeError of a message that has no text. *)
Theorem commands_post (mac id : string) :
  performs (restartDevice mac) POST (fun self => site_path self "/cmd/devmgr")
           (JObj [("cmd", JStr "restart"); ("mac", JStr mac)]) (fun _ => true)
  /\ performs (adoptDevice mac) POST (fun self => site_path self "/cmd/devmgr")
              (JObj [("cmd", JStr "adopt"); ("mac", JStr mac)]) (fun _ => true)
  /\ performs (forgetDevice mac) POST (fun self => site_path self "/cmd/devmgr")
              (JObj [("cmd", JStr "forget"); ("mac", JStr mac)]) (fun _ => true)
  /\ performs (blockClient mac) POST (fun self => site_path self "/cmd/stamgr")
              (JObj [("cmd", JStr "block-sta"); ("mac", JStr mac)]) (fun _ => true)
  /\ performs (unblockClient mac) POST (fun self => site_path self "/cmd/stamgr")
              (JObj [("cmd", JStr "unblock-sta"); ("mac", JStr mac)]) (fun _ => true)
  /\ performs (reconnectClient mac) POST (fun self => site_path self "/cmd/stamgr")
              (JObj [("cmd", JStr "kick-sta"); ("mac", JStr mac)]) (fun _ => true)
  /\ performs (archiveAlert id) POST (fun self => site_path self "/cmd/evtmgr")
              (JObj [("cmd", JStr "archive-alarm"); ("_id", JStr id)]) (fun _ => true).
Proof.
  repeat match goal with |- _ /\ _ => split end; settle_performs.
Qed.

Lemma commands_post_witness :
  run (restartDevice "aa:bb:cc:00:00:01") obliging (boot signed_in)
  = (Ok true,
     answered (boot signed_in)
       {| req_method := "post"; req_url := "/api/s/default/cmd/devmgr";
          req_data := JObj [("cmd", JStr "restart"); ("mac", JStr "aa:bb:cc:00:00:01")];
          req_Cookie := None; req_X_Csrf_Token := None |}
       (mkResponse 200 None (envelope_rc "ok"))).
Proof.
  destruct (commands_post "aa:bb:cc:00:00:01" "") as [Hrestart _].
  exact (Hrestart obliging (boot signed_in) (mkResponse 200 None (envelope_rc "ok"))
           eq_refl eq_refl).
Defined.

(** X7.  The network operations: [getNetworks] is a GET of
    [/rest/networkconf], [createNetwork] a POST of the configuration to it,
    [updateNetwork] a PUT of the configuration to [/rest/networkconf/<id>],
    and these three return the data section of a fulfilled answer with
    result code ['ok'], or the envelope when that section is missing or
    falsy.  [deleteNetwork] is a DELETE of [/rest/networkconf/<id>] and
    returns [true] on such an answer.  A fulfilled answer with another
    result code makes each of them throw [api_error]. *)
Theorem network_operations (id : string) (config : JSValue) :
  performs getNetworks GET (fun self => site_path self "/rest/networkconf")
           JUndefined (fun v => v)
  /\ performs (createNetwork config) POST (fun self => site_path self "/rest/networkconf")
              config (fun v => v)
  /\ performs (updateNetwork id config) PUT
              (fun self => site_path self ("/rest/networkconf/" ++ id)) config (fun v => v)
  /\ performs (deleteNetwork id) DELETE
              (fun self => site_path self ("/rest/networkconf/" ++ id)) JUndefined
              (fun _ => true).
Proof.
  repeat match goal with |- _ /\ _ => split end; settle_performs.
Qed.

Lemma network_operations_witness :
  run (deleteNetwork "5f1a") obliging (boot signed_in)
  = (Ok true,
     answered (boot signed_in)
       {| req_method := "delete"; req_url := "/api/s/default/rest/networkconf/5f1a";
          req_data := JUndefined; req_Cookie := None; req_X_Csrf_Token := None |}
       (mkResponse 200 None (envelope_rc "ok"))).
Proof.
  destruct (network_operations "5f1a" JUndefined) as (_ & _ & _ & Hdelete).
  exact (Hdelete obliging (boot signed_in) (mkResponse 200 None (envelope_rc "ok"))
           eq_refl eq_refl).
Defined.

(** X8.  The read operations are single GET requests without a body.  On
    a fulfilled answer with result code ['ok'] they return its data
    section, or the whole envelope when that section is missing or falsy;
    on a fulfilled answer with another result code they throw
    [api_error].  The device, client, system and alarm lists are read
    under the path of the configured site; the controller information and
    the list of sites are read from [/api/self] and [/api/self/sites],
    whatever the configured site. *)
Theorem reads_get :
  performs getDevices GET (fun self => site_path self "/stat/device") JUndefined (fun v => v)
  /\ performs getClients GET (fun self => site_path self "/stat/sta") JUndefined (fun v => v)
  /\ performs getSystemStats GET (fun self => site_path self "/stat/sysinfo") JUndefined
              (fun v => v)
  /\ performs getAlerts GET (fun self => site_path self "/list/alarm") JUndefined (fun v => v)
  /\ performs getControllerInfo GET (fun _ => "/api/self") JUndefined (fun v => v)
  /\ performs getSites GET (fun _ => "/api/self/sites") JUndefined (fun v => v).
Proof.
  repeat match goal with |- _ /\ _ => split end; try settle_performs.
  - intros c w response Ha Hanswer. unfold getControllerInfo.
    rewrite (request_answered c w _ _ _ response Ha Hanswer).
    now destruct (strict_eq_str (rc_of (data response)) "ok").
  - intros c w response Ha Hanswer. unfold getSites.
    rewrite (request_answered c w _ _ _ response Ha Hanswer).
    now destruct (strict_eq_str (rc_of (data response)) "ok").
Qed.

Lemma reads_get_witness :
  fst (run getDevices (serving (JArr two_devices)) (boot signed_in)) = Ok (JArr two_devices)
  /\ List.map req_url (sent (snd (run getSites (serving (JArr [])) (boot signed_in))))
     = ["/api/self/sites"].
Proof.
  destruct reads_get as (Hdevices & _ & _ & _ & _ & Hsites).
  split.
  - rewrite (Hdevices (serving (JArr two_devices)) (boot signed_in)
               (mkResponse 200 None
                  (JObj [("meta", JObj [("rc", JStr "ok")]); ("data", JArr two_devices)]))
               eq_refl eq_refl).
    reflexivity.
  - rewrite (Hsites (serving (JArr [])) (boot signed_in)
               (mkResponse 200 None
                  (JObj [("meta", JObj [("rc", JStr "ok")]); ("data", JArr [])]))
               eq_refl eq_refl).
    reflexivity.
Defined.

(** * The event socket through its life *)

(** [enableEvents] on an authenticated session without a handle: the socket
    is created and its handle stored before the handshake is answered. *)
Lemma enableEvents_fresh (c : Controller) (w : World) :
  isAuthenticated (api w) = true ->
  eventSocket (api w) = None ->
  run enableEvents c w
  = match handshake c (List.length (opened w)) (event_socket (api w)) with
    | WsOpen =>
        (Ok true, notified (connecting w) [mkNotification "events.connected" NoPayload])
    | WsError msg =>
        (Throw (ThrowSocket msg),
         notified (connecting w) [mkNotification "error" (PError (ThrowSocket msg))])
    | WsSilent => (Pending, connecting w)
    end.
Proof.
  intros Ha Hs. unfold run, enableEvents. unfold bind at 1.
  rewrite_run (ensureAuthenticated_noop c w Ha).
  unfold bind at 1. unfold this at 1. rewrite Hs.
  unfold new_WebSocket. run_js. fold (event_socket (api w)).
  destruct (handshake c _ _); reflexivity.
Qed.

(** X9.  [disableEvents] always returns [true] and never throws.  It
    closes the socket when there is one and clears the handle; it sends no
    request, emits nothing and does not touch the session, so it works on
    an unauthenticated client; a second call changes nothing. *)
Theorem disableEvents_idempotent (c : Controller) (w : World) :
  exists w1,
    run disableEvents c w = (Ok true, w1)
    /\ eventSocket (api w1) = None
    /\ closed w1 = (closed w ++ match eventSocket (api w) with
                               | Some sock => [sock]
                               | None => []
                               end)%list
    /\ sent w1 = sent w /\ emitted w1 = emitted w /\ opened w1 = opened w
    /\ isAuthenticated (api w1) = isAuthenticated (api w)
    /\ cookies (api w1) = cookies (api w)
    /\ run disableEvents c w1 = (Ok true, w1).
Proof.
  unfold run, disableEvents. unfold bind at 1. unfold this at 1.
  destruct (eventSocket (api w)) as [sock|] eqn:Hs.
  - unfold close. run_js. eexists. split; [reflexivity|]. simpl. now repeat split.
  - unfold ret. exists w. split; [reflexivity|].
    rewrite app_nil_r. repeat split; try assumption.
    unfold bind, this. now rewrite Hs.
Qed.

(** X10.  The client does not reconnect by itself.  When the socket
    closes, the listener clears the handle and emits [events.disconnected];
    it opens no socket and sends nothing.  A call of [enableEvents] on the
    authenticated session then opens exactly one new socket, to the event
    path of the site with the stored cookies, and emits [events.connected]
    once the handshake opens. *)
Theorem reconnect_after_close (c : Controller) (w : World) :
  isAuthenticated (api w) = true ->
  handshake c (List.length (opened w)) (event_socket (api w)) = WsOpen ->
  exists w1 w2,
    run on_close c w = (Ok tt, w1)
    /\ eventSocket (api w1) = None /\ opened w1 = opened w /\ sent w1 = sent w
    /\ run enableEvents c w1 = (Ok true, w2)
    /\ eventSocket (api w2) = Some (event_socket (api w))
    /\ opened w2 = (opened w ++ [event_socket (api w)])%list
    /\ sent w2 = sent w
    /\ emitted w2 = (emitted w ++ [mkNotification "events.disconnected" NoPayload;
                                   mkNotification "events.connected" NoPayload])%list.
Proof.
  intros Ha Hopen.
  eexists. eexists. split; [reflexivity|].
  split; [reflexivity|]. split; [reflexivity|]. split; [reflexivity|].
  split.
  - rewrite enableEvents_fresh; [|exact Ha|reflexivity].
    cbn [api opened].
    change (event_socket (set_eventSocket None (api w))) with (event_socket (api w)).
    rewrite Hopen. reflexivity.
  - cbn. rewrite <- app_assoc. now repeat split.
Qed.

Lemma reconnect_after_close_witness :
  List.length (opened (snd (run (on_close ;; enableEvents) obliging
                                (snd (run enableEvents obliging (boot signed_in)))))) = 2.
Proof.
  destruct (reconnect_after_close obliging (snd (run enableEvents obliging (boot signed_in)))
              eq_refl eq_refl) as [w1 [w2 (Hclose & _ & _ & _ & Hopen & _ & Hopened & _)]].
  unfold run in *. unfold bind. rewrite Hclose, Hopen. simpl. rewrite Hopened. reflexivity.
Defined.

(** X11.  While the handshake of a first call is still unanswered, the
    handle is already stored: a second call of [enableEvents] returns
    [true] at once although no connection is open, and [events.connected]
    has not been emitted. *)
Theorem enableEvents_while_connecting (c : Controller) (w : World) :
  isAuthenticated (api w) = true ->
  eventSocket (api w) = None ->
  handshake c (List.length (opened w)) (event_socket (api w)) = WsSilent ->
  exists w1,
    run enableEvents c w = (Pending, w1)
    /\ emitted w1 = emitted w
    /\ opened w1 = (opened w ++ [event_socket (api w)])%list
    /\ run enableEvents c w1 = (Ok true, w1).
Proof.
  intros Ha Hs Hsilent.
  exists (connecting w).
  rewrite (enableEvents_fresh c w Ha Hs), Hsilent.
  split; [reflexivity|]. split; [reflexivity|]. split; [reflexivity|].
  apply enableEvents_connected; [discriminate | exact Ha].
Qed.

Lemma enableEvents_while_connecting_witness :
  fst (run enableEvents silent_socket (boot signed_in)) = Pending
  /\ fst (run enableEvents silent_socket (snd (run enableEvents silent_socket (boot signed_in))))
     = Ok true.
Proof.
  destruct (enableEvents_while_connecting silent_socket (boot signed_in)
              eq_refl eq_refl eq_refl) as [w1 (Hfirst & _ & _ & Hsecond)].
  rewrite Hfirst. simpl. rewrite Hsecond. split; reflexivity.
Defined.

(** * Addresses *)

Lemma substring_all (s : string) : String.substring 0 (String.length s) s = s.
Proof. induction s as [|a s IH]; simpl; [reflexivity | now rewrite IH]. Qed.

Lemma append_associative (a b c : string) : (a ++ b) ++ c = a ++ (b ++ c).
Proof. induction a as [|x a IH]; simpl; [reflexivity | now rewrite IH]. Qed.

Lemma replace_http_ws_scheme (rest : string) :
  replace_http_ws ("http" ++ rest) = "ws" ++ rest.
Proof.
  simpl.
  assert (Hp : String.prefix "" rest = true) by now destruct rest.
  now rewrite Hp, Nat.sub_0_r, substring_all.
Qed.

(** X12.  For every client the constructor builds from a configuration
    whose optional fields are left out or given values of their types:
    each optional field that is given replaces its default; the base
    address is [https://host:] followed by the text of the port when [ssl]
    is on, and [http://host:] followed by it when [ssl] is off; the event
    socket is addressed at the base address with its scheme turned into
    [wss], respectively [ws], followed by [/wss/s/<site>/events], the scheme
    being the only [http] that is replaced, also when the host name
    contains [http]; and the socket checks certificates exactly when
    [strictSSL] is set.  The text of a port that is an integer below two to
    the fifty-third is its decimal numeral. *)
Theorem addresses_of_constructed_client (config : UniFiConfig) (a : UniFiAPI) :
  constructor config = Ok a ->
  cfg_host config = Some (host (options a))
  /\ port (options a) = or_default 8443%Z (cfg_port config)
  /\ site (options a) = or_default "default" (cfg_site config)
  /\ ssl (options a) = or_default true (cfg_ssl config)
  /\ strictSSL (options a) = or_default false (cfg_strictSSL config)
  /\ timeout (options a) = or_default 30000%Z (cfg_timeout config)
  /\ ws_rejectUnauthorized (event_socket a) = strictSSL (options a)
  /\ exists port_text,
       baseURL a
       = (if ssl (options a) then "https" else "http")
         ++ "://" ++ host (options a) ++ ":" ++ port_text
       /\ ws_url (event_socket a)
          = (if ssl (options a) then "wss" else "ws")
            ++ "://" ++ host (options a) ++ ":" ++ port_text
            ++ "/wss/s/" ++ site (options a) ++ "/events"
       /\ ((- 2 ^ 53 < port (options a) < 2 ^ 53)%Z ->
           port_text = string_of_Z (port (options a))).
Proof.
  unfold constructor.
  destruct (falsy_field (cfg_host config) || falsy_field (cfg_username config)
            || falsy_field (cfg_password config)) eqn:E; [discriminate|].
  intros H. injection H as <-.
  destruct (cfg_host config) as [h|] eqn:Hh; [|discriminate E].
  cbn [options host port site ssl strictSSL timeout baseURL or_default].
  repeat match goal with |- _ /\ _ => split end; try reflexivity.
  exists (string_of_Z (or_default 8443%Z (cfg_port config))).
  split; [reflexivity|]. split; [|reflexivity].
  unfold event_socket, make_baseURL.
  cbn [ws_url baseURL options host port site ssl or_default].
  destruct (or_default true (cfg_ssl config)).
  - change ("https" ++ "://" ++ h ++ ":" ++ string_of_Z (or_default 8443%Z (cfg_port config)))
      with ("http" ++ ("s://" ++ h ++ ":" ++ string_of_Z (or_default 8443%Z (cfg_port config)))).
    rewrite replace_http_ws_scheme. simpl. now rewrite !append_associative.
  - change ("http" ++ "://" ++ h ++ ":" ++ string_of_Z (or_default 8443%Z (cfg_port config)))
      with ("http" ++ ("://" ++ h ++ ":" ++ string_of_Z (or_default 8443%Z (cfg_port config)))).
    rewrite replace_http_ws_scheme. simpl. now rewrite !append_associative.
Qed.

Lemma addresses_of_constructed_client_witness :
  exists a,
    constructor http_named_config = Ok a
    /\ baseURL a = "http://http-gw.lan:8080"
    /\ ws_url (event_socket a) = "ws://http-gw.lan:8080/wss/s/branch/events".
Proof.
  destruct (constructor http_named_config) as [a| |] eqn:Hc; try discriminate Hc.
  exists a. split; [reflexivity|].
  destruct (addresses_of_constructed_client http_named_config a Hc)
    as (_ & Hport & _ & _ & _ & _ & _ & port_text & Hbase & Hws & Htext).
  injection Hc as <-.
  assert (Hsafe : (- 2 ^ 53 < 8080 < 2 ^ 53)%Z) by (split; reflexivity).
  rewrite Hbase, Hws, (Htext Hsafe). split; reflexivity.
Defined.

(** * Re-authentication *)

(** On an unauthenticated session the first request of [request] is the
    login request. *)
Lemma request_starts_with_login (c : Controller) (w w1 : World)
    (endpoint : string) (method : Method) (body : JSValue) (r : Result JSValue) :
  isAuthenticated (api w) = false ->
  run (request endpoint method body) c w = (r, w1) ->
  exists rest,
    sent w1 = (sent w ++ outgoing (api w) (login_request (api w)) :: rest)%list.
Proof.
  intros Ha Hrun.
  destruct (login c w) as [rl wl] eqn:Hl.
  assert (He : run ensureAuthenticated c w
               = (match rl with Ok _ => Ok tt | Throw t => Throw t | Pending => Pending end, wl)).
  { unfold run, ensureAuthenticated. unfold bind at 1. unfold this at 1.
    rewrite Ha. simpl. unfold bind. rewrite Hl. now destruct rl. }
  destruct (login_effects _ _ _ _ Hl) as [Hs1 [(-> & _) | ([t ->] & _)]].
  - destruct (client (request_config endpoint method body) c wl) as [rc wc] eqn:Hcall.
    pose proof (request_world c w wl wc endpoint method body rc r He Hcall) as Hw.
    rewrite Hrun in Hw. simpl in Hw. subst wc.
    destruct (client_sends_one _ _ _ _ _ Hcall) as (Hsent & _).
    eexists. rewrite Hsent, Hs1, <- app_assoc. reflexivity.
  - assert (Hreq : run (request endpoint method body) c w = (Throw t, wl)).
    { unfold run, request. unfold bind at 1. unfold run in He. now rewrite He. }
    rewrite Hrun in Hreq. injection Hreq as -> ->.
    exists []. exact Hs1.
Qed.

(** X13.  A 401 on a call of an authenticated session is not retried: the
    call throws the [INVALID_CREDENTIALS] error after its one request, and
    the session is left unauthenticated with its cookies and its socket as
    they were.  The next call of [request], whatever it asks for, starts
    with a login request. *)
Theorem reauthenticates_after_401 (c : Controller) (w : World)
    (endpoint : string) (method : Method) (body : JSValue)
    (error : AxiosError) (denied : AxiosResponse) :
  isAuthenticated (api w) = true ->
  respond c (List.length (sent w)) (outgoing (api w) (request_config endpoint method body))
    = Failed error ->
  ax_response error = Some denied -> status denied = 401%Z ->
  exists w1,
    run (request endpoint method body) c w
      = (Throw (ThrowUniFi (new_UniFiError "Authentication failed"
                              (Some "INVALID_CREDENTIALS"))), w1)
    /\ isAuthenticated (api w1) = false
    /\ cookies (api w1) = cookies (api w)
    /\ eventSocket (api w1) = eventSocket (api w)
    /\ sent w1 = (sent w ++ [outgoing (api w) (request_config endpoint method body)])%list
    /\ (forall endpoint' method' body' r' w2,
          run (request endpoint' method' body') c w1 = (r', w2) ->
          exists rest,
            sent w2 = (sent w1 ++ outgoing (api w1) (login_request (api w1)) :: rest)%list).
Proof.
  intros Ha Hanswer Hresponse Hstatus.
  assert (Hcall : run (client (request_config endpoint method body)) c w
                  = (Throw (ThrowUniFi (new_UniFiError "Authentication failed"
                                          (Some "INVALID_CREDENTIALS"))),
                     {| api := set_isAuthenticated false (api w); emitted := emitted w;
                        sent := (sent w ++ [outgoing (api w)
                                              (request_config endpoint method body)])%list;
                        opened := opened w; closed := closed w |})).
  { rewrite (client_failed c w _ error Hanswer).
    unfold run, response_rejected, status_is_401. rewrite Hresponse, Hstatus. reflexivity. }
  match type of Hcall with _ = (_, ?world) => set (w1 := world) in * end.
  exists w1. split.
  - apply request_propagates. unfold run. unfold bind at 1.
    rewrite_run (ensureAuthenticated_noop c w Ha). exact Hcall.
  - repeat match goal with |- _ /\ _ => split end; try reflexivity.
    intros endpoint' method' body' r' w2 Hnext.
    apply (request_starts_with_login c w1 w2 endpoint' method' body' r'); [reflexivity|].
    exact Hnext.
Qed.

Lemma reauthenticates_after_401_witness :
  List.map req_url
    (sent (snd (run getControllerInfo (expires_after 0)
                    (snd (run getSites (expires_after 0) (boot signed_in))))))
  = ["/api/self/sites"; "/api/login"].
Proof.
  destruct (reauthenticates_after_401 (expires_after 0) (boot signed_in)
              "/api/self/sites" GET JUndefined unauthorized
              (mkResponse 401 None JUndefined) eq_refl eq_refl eq_refl eq_refl)
    as [w1 (Hrun & _ & _ & _ & Hsent & Hnext)].
  unfold getSites, getControllerInfo. rewrite Hrun. cbn [snd].
  destruct (Hnext "/api/self" GET JUndefined
              (fst (run (request "/api/self" GET JUndefined) (expires_after 0) w1))
              (snd (run (request "/api/self" GET JUndefined) (expires_after 0) w1)))
    as [rest Hrest].
  - now destruct (run (request "/api/self" GET JUndefined) (expires_after 0) w1).
  - injection Hrun as <-. reflexivity.
Defined.

(** * Lookups on collections as they come *)

Lemma mac_matches_case (mac mac' : string) (d : JSValue) :
  same_ignoring_case mac mac' -> mac_matches mac d = mac_matches mac' d.
Proof.
  intros H. apply toLowerCase_same_ignoring_case in H.
  unfold mac_matches. now rewrite H.
Qed.

Lemma call_find_case (mac mac' : string) (collection : JSValue) :
  same_ignoring_case mac mac' ->
  call_find collection (mac_matches mac) = call_find collection (mac_matches mac').
Proof.
  intros H. destruct collection; simpl; try reflexivity.
  induction xs as [|x xs IH]; simpl; [reflexivity|].
  rewrite (mac_matches_case mac mac' x H). now rewrite IH.
Qed.

Lemma lookup_shape_case (c : Controller) (w : World) (fetch : M JSValue)
    (missing : string -> Thrown) (mac mac' : string) :
  same_ignoring_case mac mac' ->
  let lookup (m : string) : M JSValue :=
    (found <- fetch ;;
     entry <- lift (call_find found (mac_matches m)) ;;
     if negb (truthy entry) then throw (missing m) else ret entry) in
  snd (lookup mac c w) = snd (lookup mac' c w)
  /\ (forall d, fst (lookup mac c w) = Ok d <-> fst (lookup mac' c w) = Ok d).
Proof.
  intros H lookup. subst lookup. cbv beta.
  unfold bind at 1 3 5 7.
  destruct (fetch c w) as [[found|t|] w1]; simpl; try (split; [reflexivity|]; intros; tauto).
  unfold bind, lift. rewrite (call_find_case mac mac' found H).
  destruct (call_find found (mac_matches mac')) as [entry|t|]; simpl;
    try (split; [reflexivity|]; intros; tauto).
  destruct (truthy entry); simpl; unfold throw, ret; simpl.
  - split; [reflexivity|]. intros; tauto.
  - split; [reflexivity|]. intros d. split; discriminate.
Qed.

(** X14.  The result of a lookup does not depend on the case of the
    argument: on any answer of the controller, well formed or not,
    [getDevice] and [getClient] return an entry for one spelling of the
    identifier exactly when they return it for the other, and they end in
    the same session.  Only the text of the not-found error quotes the
    argument as it was given. *)
Theorem lookup_case_invariant (c : Controller) (w : World) (mac mac' : string) :
  same_ignoring_case mac mac' ->
  snd (run (getDevice mac) c w) = snd (run (getDevice mac') c w)
  /\ snd (run (getClient mac) c w) = snd (run (getClient mac') c w)
  /\ (forall d, fst (run (getDevice mac) c w) = Ok d <-> fst (run (getDevice mac') c w) = Ok d)
  /\ (forall d, fst (run (getClient mac) c w) = Ok d <-> fst (run (getClient mac') c w) = Ok d).
Proof.
  intros H.
  destruct (lookup_shape_case c w getDevices
              (fun m => ThrowUniFi (new_UniFiError ("Device with MAC " ++ m ++ " not found")
                                      None)) mac mac' H) as [Hd1 Hd2].
  destruct (lookup_shape_case c w getClients
              (fun m => ThrowUniFi (new_UniFiError ("Client with MAC " ++ m ++ " not found")
                                      None)) mac mac' H) as [Hc1 Hc2].
  repeat split; try assumption; try apply Hd2; try apply Hc2.
Qed.

Lemma lookup_case_invariant_witness :
  fst (run (getDevice "AA:BB:CC:00:00:01") (serving (JArr two_devices)) (boot signed_in))
  = Ok (JObj [("mac", JStr "aa:bb:cc:00:00:01"); ("name", JStr "switch")]).
Proof.
  assert (H : same_ignoring_case "aa:bb:cc:00:00:01" "AA:BB:CC:00:00:01").
  { apply toLowerCase_same_ignoring_case. reflexivity. }
  destruct (lookup_case_invariant (serving (JArr two_devices)) (boot signed_in)
              "aa:bb:cc:00:00:01" "AA:BB:CC:00:00:01" H) as (_ & _ & Hdevice & _).
  apply Hdevice. reflexivity.
Defined.

(** X15.  A lookup scans the answer as it comes.  An entry without a
    string [mac], standing after entries whose ASCII identifiers the lookup
    tells apart from its ASCII argument (or standing first), makes
    [getDevice] and [getClient] throw a TypeError, also when a later entry
    has the identifier; and so does an answer that is no array, such as the
    bare envelope of an answer without data section.  Neither case is
    reported as not found. *)
Theorem lookup_breaks_on_untyped_entry (c : Controller) (w w1 : World) (mac : string)
    (fetched : JSValue) :
  let breaks (v : JSValue) : Prop :=
    (forall xs, v <> JArr xs)
    \/ exists pre d post,
         v = JArr (pre ++ d :: post)
         /\ Forall (identified_apart mac) pre
         /\ forall s, get_prop_opt d "mac" <> JStr s in
  breaks fetched ->
  (run getDevices c w = (Ok fetched, w1) ->
   exists msg, run (getDevice mac) c w = (Throw (ThrowTypeError msg), w1))
  /\ (run getClients c w = (Ok fetched, w1) ->
      exists msg, run (getClient mac) c w = (Throw (ThrowTypeError msg), w1)).
Proof.
  intros breaks Hbreaks.
  assert (Hfind : exists msg, call_find fetched (mac_matches mac) = Throw (ThrowTypeError msg)).
  { destruct Hbreaks as [Hno | (pre & d & post & -> & Hpre & Hd)].
    - destruct fetched; simpl; eauto. exfalso. now apply (Hno xs).
    - apply Forall_apart_otherwise in Hpre.
      simpl. induction Hpre as [|x pre Hx _ IH]; simpl.
      + unfold mac_matches.
        destruct d as [| | | | | |props]; simpl; eauto.
        simpl in Hd.
        destruct (own_property "mac" props) as [| | | |s| |]; eauto.
        exfalso. now apply (Hd s).
      + now rewrite (mac_matches_otherwise mac x Hx). }
  destruct Hfind as [msg Hfind].
  split; intros Hfetch; unfold run in Hfetch; exists msg.
  - unfold run, getDevice. unfold bind at 1. rewrite Hfetch.
    unfold bind, lift. now rewrite Hfind.
  - unfold run, getClient. unfold bind at 1. rewrite Hfetch.
    unfold bind, lift. now rewrite Hfind.
Qed.

Lemma lookup_breaks_on_untyped_entry_witness :
  exists msg,
    fst (run (getDevice "aa:bb:cc:00:00:02") (serving (JArr damaged_devices)) (boot signed_in))
    = Throw (ThrowTypeError msg).
Proof.
  destruct (lookup_breaks_on_untyped_entry (serving (JArr damaged_devices)) (boot signed_in)
              (snd (run getDevices (serving (JArr damaged_devices)) (boot signed_in)))
              "aa:bb:cc:00:00:02" (JArr damaged_devices)) as [Hdevice _].
  - right. exists [], (JObj [("name", JStr "unnamed")]),
      [JObj [("mac", JStr "aa:bb:cc:00:00:02"); ("name", JStr "ap")]].
    split; [reflexivity|]. split; [constructor|]. discriminate.
  - destruct (Hdevice eq_refl) as [msg Hrun]. exists msg. now rewrite Hrun.
Defined.

(** * After logout *)

(** X16.  After a logout whose call succeeded the client holds no
    credential: the cookies and the token are cleared, also the cookies
    that came with the answer to the logout itself, so the next request
    leaves without [Cookie] and without [X-Csrf-Token] header; and the
    session being unauthenticated, the next call of [request] starts with a
    login request. *)
Theorem logout_forgets_credentials (c : Controller) (w : World) (response : AxiosResponse) :
  respond c (List.length (sent w)) (outgoing (api w) logout_request) = Fulfilled response ->
  exists w1,
    run logout c w = (Ok true, w1)
    /\ (forall next, outgoing (api w1) next = next)
    /\ (forall endpoint method body r w2,
          run (request endpoint method body) c w1 = (r, w2) ->
          exists rest,
            sent w2 = (sent w1 ++ login_request (api w1) :: rest)%list).
Proof.
  intros Hanswer.
  destruct (run logout c w) as [r w1] eqn:Hrun.
  assert (Hfacts : r = Ok true /\ cookies (api w1) = "" /\ csrfToken (api w1) = JStr ""
                   /\ isAuthenticated (api w1) = false).
  { revert Hrun. unfold run, logout, try_catch. unfold bind at 1.
    rewrite_run (client_fulfilled c w logout_request response Hanswer).
    run_js. unfold close.
    destruct (eventSocket (received response (api w))); simpl;
      intros H; injection H as <- <-; now repeat split. }
  destruct Hfacts as (-> & Hc & Hk & Ha).
  assert (Hout : forall next, outgoing (api w1) next = next).
  { intros [m u d k x]. unfold outgoing. rewrite Hc, Hk. reflexivity. }
  exists w1. split; [reflexivity|]. split; [exact Hout|].
  intros endpoint method body r w2 Hnext.
  destruct (request_starts_with_login c w1 w2 endpoint method body r Ha Hnext) as [rest Hrest].
  exists rest. now rewrite Hrest, Hout.
Qed.

Lemma logout_forgets_credentials_witness :
  exists w1,
    run logout cookie_setting (snd (run login cookie_setting (boot minimal_api)))
      = (Ok true, w1)
    /\ outgoing (api w1) (login_request (api w1)) = login_request (api w1).
Proof.
  destruct (logout_forgets_credentials cookie_setting
              (snd (run login cookie_setting (boot minimal_api)))
              (mkResponse 200
                 (Some ["unifises=abc123; Path=/; Secure; HttpOnly"; "csrf_token=xyz; Path=/"])
                 (envelope_rc "ok")) eq_refl) as [w1 (Hrun & Hout & _)].
  exists w1. split; [exact Hrun | apply Hout].
Defined.

(** * The configuration is never written *)

Section Configuration.

Context {A B : Type}.

Lemma kc_ret (a : A) : keeps_configuration (ret a).
Proof. intros c w. now split. Qed.

Lemma kc_throw (t : Thrown) : keeps_configuration (@throw A t).
Proof. intros c w. now split. Qed.

Lemma kc_never : keeps_configuration (@never A).
Proof. intros c w. now split. Qed.

Lemma kc_lift (r : Result A) : keeps_configuration (lift r).
Proof. intros c w. now split. Qed.

Lemma kc_bind (m : M A) (k : A -> M B) :
  keeps_configuration m -> (forall a, keeps_configuration (k a)) ->
  keeps_configuration (bind m k).
Proof.
  intros Hm Hk c w. unfold run, bind.
  specialize (Hm c w). unfold run in Hm.
  destruct (m c w) as [[a|t|] w'] eqn:E; simpl in *; try assumption.
  specialize (Hk a c w'). unfold run in Hk.
  destruct Hk as [Ho Hb]. destruct Hm as [Ho' Hb']. split; congruence.
Qed.

Lemma kc_try_catch (m : M A) (h : Thrown -> M A) :
  keeps_configuration m -> (forall t, keeps_configuration (h t)) ->
  keeps_configuration (try_catch m h).
Proof.
  intros Hm Hh c w. unfold run, try_catch.
  specialize (Hm c w). unfold run in Hm.
  destruct (m c w) as [[a|t|] w'] eqn:E; simpl in *; try assumption.
  specialize (Hh t c w'). unfold run in Hh.
  destruct Hh as [Ho Hb]. destruct Hm as [Ho' Hb']. split; congruence.
Qed.

End Configuration.

Lemma kc_this : keeps_configuration this.
Proof. intros c w. now split. Qed.

Lemma kc_emit (n : string) (p : Payload) : keeps_configuration (emit n p).
Proof. intros c w. now split. Qed.

Lemma kc_transport (req : AxiosRequest) : keeps_configuration (transport req).
Proof. intros c w. now split. Qed.

Lemma kc_close (sock : WebSocket) : keeps_configuration (close sock).
Proof. intros c w. now split. Qed.

Lemma kc_new_WebSocket (url cookie : string) (strict : bool) :
  keeps_configuration (new_WebSocket url cookie strict).
Proof. intros c w. now split. Qed.

Lemma kc_set_cookies (v : string) : keeps_configuration (assign (set_cookies v)).
Proof. intros c w. now split. Qed.

Lemma kc_set_csrfToken (v : JSValue) : keeps_configuration (assign (set_csrfToken v)).
Proof. intros c w. now split. Qed.

Lemma kc_set_eventSocket (v : option WebSocket) :
  keeps_configuration (assign (set_eventSocket v)).
Proof. intros c w. now split. Qed.

Lemma kc_set_isAuthenticated (v : bool) :
  keeps_configuration (assign (set_isAuthenticated v)).
Proof. intros c w. now split. Qed.

Create HintDb configuration.
#[local] Hint Resolve kc_ret kc_throw kc_never kc_lift kc_this kc_emit kc_transport kc_close
  kc_new_WebSocket kc_set_cookies kc_set_csrfToken kc_set_eventSocket
  kc_set_isAuthenticated : configuration.

(** Follow the structure of a method: sequences, handlers, branches. *)
Ltac keep_configuration :=
  repeat first
    [ solve [auto with configuration]
    | apply kc_bind; [|intros ?]
    | apply kc_try_catch; [|intros ?]
    | match goal with
      | |- keeps_configuration (if ?b then _ else _) => destruct b
      | |- keeps_configuration (match ?x with _ => _ end) => destruct x
      end ].

Lemma kc_client (config : AxiosRequest) : keeps_configuration (client config).
Proof.
  unfold client, request_interceptor, response_fulfilled, response_rejected.
  keep_configuration.
Qed.

Lemma kc_login : keeps_configuration login.
Proof.
  unfold login. pose proof kc_client as Hclient. keep_configuration.
Qed.

Lemma kc_ensureAuthenticated : keeps_configuration ensureAuthenticated.
Proof.
  unfold ensureAuthenticated. pose proof kc_login as Hlogin. keep_configuration.
Qed.

Lemma kc_request (endpoint : string) (method : Method) (body : JSValue) :
  keeps_configuration (request endpoint method body).
Proof.
  unfold request.
  pose proof kc_ensureAuthenticated as Hensure. pose proof kc_client as Hclient.
  keep_configuration.
Qed.

Lemma kc_logout : keeps_configuration logout.
Proof.
  unfold logout. pose proof kc_client as Hclient. keep_configuration.
Qed.

Lemma kc_handleEvent (event : JSValue) : keeps_configuration (handleEvent event).
Proof. unfold handleEvent. keep_configuration. Qed.

Lemma kc_enableEvents : keeps_configuration enableEvents.
Proof.
  unfold enableEvents. pose proof kc_ensureAuthenticated as Hensure. keep_configuration.
Qed.

Lemma kc_disableEvents : keeps_configuration disableEvents.
Proof. unfold disableEvents. keep_configuration. Qed.

Lemma kc_on_close : keeps_configuration on_close.
Proof. unfold on_close. keep_configuration. Qed.

(** X17.  The connection configuration is immutable after construction:
    no method writes the options or the base address.  Whatever the
    controller answers, they are the same after [login], [logout],
    [request] and the operations built on it, [enableEvents],
    [disableEvents], the event handler and the close listener as they were
    before. *)
Theorem configuration_immutable :
  keeps_configuration login
  /\ keeps_configuration logout
  /\ (forall endpoint method body, keeps_configuration (request endpoint method body))
  /\ (forall mac, keeps_configuration (getDevice mac))
  /\ (forall mac, keeps_configuration (getClient mac))
  /\ (forall mac, keeps_configuration (getDeviceStats mac))
  /\ (forall mac, keeps_configuration (getClientStats mac))
  /\ (forall mac, keeps_configuration (restartDevice mac))
  /\ (forall mac, keeps_configuration (blockClient mac))
  /\ (forall id config, keeps_configuration (updateNetwork id config))
  /\ keeps_configuration enableEvents
  /\ keeps_configuration disableEvents
  /\ (forall event, keeps_configuration (handleEvent event))
  /\ keeps_configuration on_close.
Proof.
  pose proof kc_request as Hrequest.
  repeat match goal with |- _ /\ _ => split end;
    try solve [ apply kc_login | apply kc_logout | apply kc_request | apply kc_enableEvents
              | apply kc_disableEvents | apply kc_handleEvent | apply kc_on_close ];
    intros;
    unfold getDevice, getClient, getDevices, getClients, getDeviceStats, getClientStats,
      restartDevice, blockClient, updateNetwork;
    keep_configuration.
Qed.

(** * Events on an unauthenticated session *)

(** X18.  [enableEvents] on an unauthenticated session logs in before
    anything else.  When the login throws, [enableEvents] throws the same
    error and no socket is created.  When the login returns and there is no
    handle, the socket is created with the cookies the login has just
    stored, and after the handshake has opened the caller has seen
    [authenticated] and then [events.connected]. *)
Theorem enableEvents_authenticates_first (c : Controller) (w : World) :
  isAuthenticated (api w) = false ->
  (forall t wl,
     run login c w = (Throw t, wl) ->
     run enableEvents c w = (Throw t, wl) /\ opened wl = opened w)
  /\ (forall wl,
        run login c w = (Ok true, wl) ->
        eventSocket (api w) = None ->
        handshake c (List.length (opened w)) (event_socket (api wl)) = WsOpen ->
        exists w2,
          run enableEvents c w = (Ok true, w2)
          /\ opened w2 = (opened w ++ [event_socket (api wl)])%list
          /\ eventSocket (api w2) = Some (event_socket (api wl))
          /\ ws_cookie (event_socket (api wl)) = cookies (api wl)
          /\ emitted w2 = (emitted w ++ [mkNotification "authenticated" NoPayload;
                                         mkNotification "events.connected" NoPayload])%list).
Proof.
  intros Ha.
  assert (He : forall rl wl, run login c w = (rl, wl) ->
            run ensureAuthenticated c w
            = (match rl with Ok _ => Ok tt | Throw t => Throw t | Pending => Pending end, wl)).
  { intros rl wl Hl. unfold run in *. unfold ensureAuthenticated.
    unfold bind at 1. unfold this at 1. rewrite Ha. simpl. unfold bind. rewrite Hl.
    now destruct rl. }
  split.
  - intros t wl Hl.
    destruct (login_frame _ _ _ _ Hl) as (Ho & _).
    split; [|exact Ho].
    unfold run, enableEvents. unfold bind at 1. now rewrite_run (He _ _ Hl).
  - intros wl Hl Hs Hopen.
    destruct (login_frame _ _ _ _ Hl) as (Ho & _ & Hsock & _).
    destruct (login_effects _ _ _ _ Hl) as [_ [(_ & Hauth & Hem) | ([t Ht] & _)]];
      [|discriminate Ht].
    assert (Hrun : run enableEvents c w = run enableEvents c wl).
    { unfold run, enableEvents. unfold bind at 1. rewrite_run (He _ _ Hl).
      symmetry. unfold bind at 1.
      now rewrite_run (ensureAuthenticated_noop c wl Hauth). }
    rewrite Hrun, enableEvents_fresh; [|exact Hauth|congruence].
    rewrite Ho, Hopen. eexists. split; [reflexivity|].
    cbn. rewrite Ho, Hem, <- app_assoc. now repeat split.
Qed.

Lemma enableEvents_authenticates_first_witness :
  run enableEvents (failing refused) (boot minimal_api)
    = run login (failing refused) (boot minimal_api)
  /\ List.map ws_cookie (opened (snd (run enableEvents cookie_setting (boot minimal_api))))
     = ["unifises=abc123; csrf_token=xyz"].
Proof.
  destruct (enableEvents_authenticates_first (failing refused) (boot minimal_api) eq_refl)
    as [Hthrow _].
  destruct (enableEvents_authenticates_first cookie_setting (boot minimal_api) eq_refl)
    as [_ Hopen].
  split.
  - destruct (Hthrow (ThrowUniFi (new_UniFiError
                        "Cannot connect to UniFi Controller at https://test.local:8443"
                        (Some "CONNECTION_ERROR")))
                (snd (run login (failing refused) (boot minimal_api))) eq_refl) as [Hrun _].
    rewrite Hrun. reflexivity.
  - destruct (Hopen (snd (run login cookie_setting (boot minimal_api)))
                eq_refl eq_refl eq_refl) as [w2 (Hrun & Hopened & _)].
    rewrite Hrun. cbn [snd]. rewrite Hopened. reflexivity.
Defined.
